(** * Verification of the transaction tester (index.js)

    A shallow embedding of [main] and of the helpers it calls: the nonce
    cache, the type dispatch that fills a transaction builder, the
    multi-signature and signing steps and the final assertion.  The
    cryptography, the network and the random generator are collaborators
    of the script: the first are taken as functions ([Externals]), the
    others as the answers they give during one run ([World]). *)

From Stdlib Require Import ZArith Lia Ascii.
From Stdlib Require Import PrimFloat FloatOps SpecFloat.
From stdpp Require Import gmap strings list.

Local Open Scope string_scope.
Local Open Scope Z_scope.

(** ** JavaScript values *)

(** A string-valued expression that may be [undefined].  The empty
    string and [undefined] are the falsy ones. *)
Definition truthy (s : option string) : bool :=
  match s with
  | Some s => negb (String.eqb s "")
  | None => false
  end.

(** [a || b] on such values. *)
Definition js_or (a b : option string) : option string :=
  if truthy a then a else b.

(** [a || d] when the right operand is a string. *)
Definition js_or_default (a : option string) (d : string) : string :=
  match a with
  | Some s => if String.eqb s "" then d else s
  | None => d
  end.

(** What a nonce can be before it reaches [Utils.BigNumber.make]:
    [undefined] (cold wallet, unset option), a number, or the decimal
    string of an integer (the wallet API answers with strings; a string
    of digits is never empty, so it is truthy even for "0"). *)
Inductive nonce_src :=
| NUndefined
| NNumber (n : Z)
| NNumeral (n : Z).

Definition truthy_nonce (v : nonce_src) : bool :=
  match v with
  | NUndefined => false
  | NNumber n => negb (n =? 0)
  | NNumeral _ => true
  end.

Definition nonce_or (a b : nonce_src) : nonce_src :=
  if truthy_nonce a then a else b.

(** [Utils.BigNumber.make]: an arbitrary-precision integer.  The script
    only applies it to [... || 0], never to [undefined]. *)
Definition BigNumber_make (v : nonce_src) : Z :=
  match v with
  | NUndefined => 0
  | NNumber n => n
  | NNumeral n => n
  end.

(** [Math.floor] on a double; [None] stands for NaN and the infinities. *)
Definition Math_floor (x : float) : option Z :=
  match Prim2SF x with
  | S754_zero _ => Some 0
  | S754_finite s m e =>
      let n := if s then Z.neg m else Z.pos m in
      Some (if 0 <=? e then n * 2 ^ e else n / 2 ^ (- e))
  | S754_infinity _ => None
  | S754_nan => None
  end.

(** An integer below 2^53 as a double (array lengths, small constants). *)
Definition to_float (n : Z) : float :=
  SF2Prim (binary_normalize prec emax n 0 false).

(** [data.split(" ")]: never the empty list; consecutive spaces give
    empty tokens. *)
Fixpoint split (data : string) : list string :=
  match data with
  | EmptyString => [EmptyString]
  | String c rest =>
      if Ascii.eqb c " "%char then EmptyString :: split rest
      else match split rest with
           | tok :: toks => String c tok :: toks
           | [] => [String c EmptyString]
           end
  end.

(** ** Fixtures *)

Record wallet := {
  passphrase : string;
  address : string;
  publicKey : string;
}.

(** The entries of [testWallets] that are not commented out. *)
Definition testWallets : list wallet := [
  {| passphrase := "2.6-wallet1"; address := "DHKxXag9PjfjHBbPg3HQS5WCaQZdgDf6yi";
     publicKey := "02ca35b12058437774b47b0fde00a80c680855403330ce41bdefef6e504661f7ed" |};
  {| passphrase := "2.6-wallet2"; address := "DBzGiUk8UVjB2dKCfGRixknB7Ki3Zhqthp";
     publicKey := "022668b4d0135cf1d221f1bdf8b6a3a3027bb6adedce32a737553291481e64e490" |};
  {| passphrase := "2.6-wallet5"; address := "DQhzMRvVoCYCiZH2iSyuqCTcayz7z4XTKx";
     publicKey := "03a23637f079abde0deb5860daa4d26717855af14c6dded8bc401bda4465f4b747" |};
  {| passphrase := "2.6-wallet6"; address := "DMSD6fFT1Xcxh4ErYExr5MtGnEuDcYu22m";
     publicKey := "0223b47710716023b45d37a2e45d6cafcabcb0541f4c9d57f946f1fa5630c2d026" |};
  {| passphrase := "2.6-wallet10"; address := "DEHyKHdtzHqTghfpwaBcvTzLpgPP5AAUgE";
     publicKey := "02e7e9b33d19e5aa7ad092e8cdb5c973b44e2c761840c64a1abbe5571bb317d464" |};
  {| passphrase := "2.6-wallet11"; address := "DBgA92a616rwVi9GsgYUwBq9Y7dgvZiC41";
     publicKey := "028b84f92ec7ec7a019973c9183403304ae9564787b66c242fa899c299617812af" |};
  {| passphrase := "2.6-wallet13"; address := "D6JpPhN7BehrhNy7AbSQ2u9mkSZb1k7Ens";
     publicKey := "03c2b313282db91aad627c4a52d47bec99eb7c6e637399bb213c8aff652f9b7494" |};
  {| passphrase := "2.6-wallet14"; address := "D9sdJ42YtJpXeL7Fa1cTLiciW7FpGYqms4";
     publicKey := "03215cb65a51897465c7ee5da007a4506b8451b004749dfe28d4debaa17f6423ea" |};
  {| passphrase := "2.6-wallet18"; address := "DAwN6Pp4ErGf69EypErrbtuWFfEMtuSzmE";
     publicKey := "02d9bc80a3e40742ba116ebfaeaa7d792ccdfefa3dd24762b3d02a0e3e4e67af6d" |};
  {| passphrase := "2.6-wallet19"; address := "DQ6sE3jE9rTFC13e2ndooRdy5YCYinLbPm";
     publicKey := "033b93fed9f0f6b84ccb23389d24b564b13d3ad2bb0b9ab7938d4700fb3a80ce03" |};
  {| passphrase := "2.6-wallet21"; address := "D6qzeJEGG7rEBem5bNCCZqHtPCBtzsUZpP";
     publicKey := "02ecd3dcdd17f36ba7ba0b4ff836b03fff2300f7e324431de39503bf1ef804989a" |};
  {| passphrase := "2.6-wallet22"; address := "DNVhLKTPh4LnqhcnkogNS8iSxmsnFG17tC";
     publicKey := "02db4da057fe2c0ba1b934fbd4c4415ef54c5dad859cc90fe95e9a875fde8d319f" |};
  {| passphrase := "2.6-wallet25"; address := "D7XtDDKh2VrRtz5rtbBicfgSEoEQzEZiNx";
     publicKey := "03be3feac3dd670643b5a6ac013f8a3ca37cfc7c8efe3d93dd532c97b6d203300a" |};
  {| passphrase := "2.6-wallet26"; address := "D9gQjhu2tDUstXfrbK85zHi23VtAk72qsS";
     publicKey := "020c2f9c124dacb9bfd6b9373e35c1c07aab8c6ecd50fa3b2946c79a79a1838687" |};
  {| passphrase := "2.6-wallet27"; address := "DKhfkyY4RZyxR7CFjQAeNtGKXAaVEBa9HK";
     publicKey := "025921ff2ca02733ee9760ab7ad7b1db628adaee36317db5a0fba9da876c001298" |};
  {| passphrase := "2.6-wallet30"; address := "D5taz6B4xDk1LD3jV4fYrUhaKC8DnTtziW";
     publicKey := "0352ff2cbd609fdcfc032c18c6a667009044fdb3ed279ceca2092638ac8bd6d06c" |};
  {| passphrase := "2.6-wallet31"; address := "DDb3EXY3refv2f5ymMME3hp2DXFqMPzGah";
     publicKey := "021d83e48f132a94dba93b216ae7a2b35965bf02818246393164bfee6c36f3f56b" |};
  {| passphrase := "2.6-wallet32"; address := "D5HydybffvfuwdbBKQ1dnhiXzNnWq6CgQz";
     publicKey := "03b3a212f8eff66c6bfda38090e75a9a82015438048a758b3a7c6d7dc050551455" |};
  {| passphrase := "2.6-wallet33"; address := "D9DMKvx8fDyWyAP1EUGs5McBwwv3y5E1Yn";
     publicKey := "02ce5dda5b417698c998af763176a8255b507b48929826074e56e60d30a16a622d" |};
  {| passphrase := "2.6-wallet35"; address := "DJAmJiuLQGnzXWmH7KvosVLks7hhfxQ8np";
     publicKey := "021085fef11deb2a3c3a532f340422f22944dbfa751d22ea62fd8d3801f352c6fd" |};
  {| passphrase := "2.6-wallet36"; address := "D752ZwkQZKm5gYYMUZV2tKFFZZaD35MtRa";
     publicKey := "03395ce74f7d696edee6e34bc68b7c41348f558ee99766389adcf93e6291d8c37b" |};
  {| passphrase := "2.6-wallet38"; address := "D9yDJNK4xHP9Gx27s187Z5XHcNF5YFA94h";
     publicKey := "02ff1f60dd2800e1941ae51ff6fb5244bf295bd65eec07c0b82c1ac887b14dcc64" |};
  {| passphrase := "2.6-wallet39"; address := "DJuZC2smL8j86bUNrZiNceAubad3zs3drS";
     publicKey := "0259d03d5c09ac98fc3fe9731ed007cd36e3fd88dfaf1f8cbbcb5cade349ba51ee" |};
  {| passphrase := "2.6-wallet43"; address := "DFmg9q2KqGyretLazvRjWdynJAZbPkZPG2";
     publicKey := "0248b2103dc49a8cb78931037fd9e7bafb0cff52c4c106bbc2732b93a9cadbd03a" |};
  {| passphrase := "2.6-wallet44"; address := "DMnY8QWLAmsb4wNEjRVvtQsNWF4SbXntxM";
     publicKey := "03b88068bce125a3cbe86607d64c138c3c3ef79bf4c1589e7604a3a9bf6f3d5370" |};
  {| passphrase := "2.6-wallet45"; address := "DBMn94FxVB36nXgzbmtmfu6jVEGwwHNyNA";
     publicKey := "03630de470d97f0c99b60cfc0990b756fb26a7201005ba83b98b1829a0b9627d7a" |};
  {| passphrase := "2.6-wallet46"; address := "DUD3r46LtArk4msu6jFrwn1hjxbZoXzX9t";
     publicKey := "035950433667d3868c5778de98e41a47b0358afc8f853c87e1ce928315522325cc" |};
  {| passphrase := "2.6-wallet47"; address := "DFUNVTBd5zFexBaHkymr4UJqsHeXhPLKUF";
     publicKey := "030a5e6f4098883281d9c0d7a7c8eaf0402ed3ab5ea763eef11a197f484aa2b160" |};
  {| passphrase := "2.6-wallet49"; address := "D8LiYnmH4DLDyxCLTV7RrqxtCA21pfGkb9";
     publicKey := "0387873485f1af537fed3efc2341907aa8b0e9ae1c331bdff9f679277a0a23b7cb" |};
  {| passphrase := "2.6-wallet51"; address := "D5iNaf5ZckhdZivPfy6vFvBLeBDJtvDoGo";
     publicKey := "0236effbd21efb0aa2b4b06b97b29eaba1532339b741f63be32551297b40ebe893" |};
  {| passphrase := "2.6-wallet52"; address := "DPrdeuFDcfMujvYK6n18RBAWgh7hYeiDeZ";
     publicKey := "02fdc1278fdf07d5d9cce34f3ea1934e6ff7f38777f49bb600c994515c188e3ecb" |};
  {| passphrase := "2.6-wallet53"; address := "D9oaC7bd2YaJYHDdGkUdyAnfpkBrFFKZHy";
     publicKey := "034f66df17f860b8b8b0e8172cc284a92b61d451a3388487b284990ccf7e3e933b" |};
  {| passphrase := "2.6-wallet54"; address := "DUTUfseKR6qJRjqCuxeH3oRxMr6EFLUxRW";
     publicKey := "029b315516f740c9e81fb815c77581870587c1ee251e363c8ef1603d6f6d8fcad0" |};
  {| passphrase := "2.6-wallet56"; address := "DE1BK8iL17PiBwo9TUCfkkm1vnUkobBwj8";
     publicKey := "028d0f82396ee16371f423042774bb66e07f1306b73d6e25e6c712342b0c54f91c" |};
  {| passphrase := "2.6-wallet57"; address := "D7Ba6DnbpPJgqVnQNdN7baRsZs1DKvptMM";
     publicKey := "02e4e3d997b9c160e11bc4bf79f011cc7adee0a8d23a244c37c231dedf29f659c6" |};
  {| passphrase := "2.6-wallet58"; address := "DUBcre2e5KMykYr6xK56T5BrwkKMZkUF8r";
     publicKey := "03b1a962a3a06237776efe6299b9ef95fb81cf5fd2a98a0ec951533df7839f36cc" |};
  {| passphrase := "2.6-wallet59"; address := "DPeqoTgBbRhyuEJtMnhqhSAeK32ymMNvjd";
     publicKey := "028c430df44c120ed342e37da5ea8992eac6755c43fe6a6a870b02ae81a943ba75" |};
  {| passphrase := "2.6-wallet63"; address := "DFLY9huetM6GMrt9EGp6sXDEiC7r3oSYHg";
     publicKey := "0318fcac6cd16617340ce11fb7f33c2fb9861dfff8dc5304a7a55b6672154b7cf1" |};
  {| passphrase := "2.6-wallet64"; address := "DEszKKqdRipXiF7BDKS2Q4iJwwfzLdwADK";
     publicKey := "03a819a41b0f00e80f46ee369633a0fab779841ff44b530ba530169bb8c5b2e242" |};
  {| passphrase := "2.6-wallet65"; address := "DF45FRKUYcyUGeZyyTF3sCYJ8VFNXymzhJ";
     publicKey := "0246812d42b455b806f8cda6ff3808471a9a362c709d89867b296fb67f29085188" |};
  {| passphrase := "2.6-wallet67"; address := "DCqqT4x4on1dsbgUKRWkuZsdZaoohYK6NV";
     publicKey := "020611b40c71f84dfe6e41397d02c93512881bd577b6ec8379cdaefab1ab85e0f5" |};
  {| passphrase := "2.6-wallet70"; address := "DF5ZYcQsmgDvH6cVQR87xvXapyTUFB1a5R";
     publicKey := "03ed92fb37629bf1c7f573e175e27c1a30e31b7e1814d0635845ce4b0d375b655e" |};
  {| passphrase := "2.6-wallet72"; address := "DP6k5YTtaeNJUHZ72H6QtugFaHVB5vEBQe";
     publicKey := "03abaa80de87f0ce5d41c47374cc09e219f7d4138331c7d60db8ea925967cada5a" |};
  {| passphrase := "2.6-wallet76"; address := "D75g1ztcaHi46eUFRnakRryqG7GV9xsgGC";
     publicKey := "036c613ec27de52db43f3278cc816b5decabdb24dd0dd1b5b297572474fcbd7079" |};
  {| passphrase := "2.6-wallet77"; address := "DSkMiPrEx3YF6ijDjxhwCnbAbriC8sWKEW";
     publicKey := "03bff2fb4d7852040cb3510d0daf01464e84788027f6f21eea39e4cc782340dbba" |};
  {| passphrase := "2.6-wallet79"; address := "DQZUzueTvUJb5tnhBCziPYaMnzaoui4F57";
     publicKey := "021beb69e7303005d4594912b90a7995bd07d24ec382e90584c7d4c8c93e97089a" |};
  {| passphrase := "2.6-wallet81"; address := "DHSW3vi66L63xnzRt9PadwSVrb9bCKhgvJ";
     publicKey := "025da4ebd800f85e96e31590e162bf2d9f78ae9174655d6bdec201a99bd6580ce2" |};
  {| passphrase := "2.6-wallet82"; address := "D6eAmMh6FFynorCSjHS1Qx75rXiN89soa7";
     publicKey := "02fa2d048e3beeeb6eb1a307f83e3192f8a244d13ef6dc144caa9677e560b7da67" |};
  {| passphrase := "2.6-wallet83"; address := "DGPoaSg15fb6As8bPKBAQrK3nCDpgfYow8";
     publicKey := "029fa9f69b302ff49a252e07b4722de81b8105746543085832e9dca293bebe7aff" |};
  {| passphrase := "2.6-wallet84"; address := "DKPmC4G1ZEwxb5hZro2sJwRWJ1pQixcK6N";
     publicKey := "0317d9ca2a86d583facbc3ab7a0705eafc89199055d46055fb01950c53bc4dfa21" |};
  {| passphrase := "2.6-wallet88"; address := "DBBbtnKKDAW84bDjywEmQFLgwf36DxJHZJ";
     publicKey := "03c53de42449df160356b7382af168903153ac95491994ab6c278840cd00872c68" |};
  {| passphrase := "2.6-wallet89"; address := "DA7GfDKG5zYFeiZ1C4FPJBeTajpYNvXxcC";
     publicKey := "0256ee467ae3129537189eb02f4d81d80e428aa5b2a53668f5ce2c6d3a9ca6ab2c" |};
  {| passphrase := "2.6-wallet90"; address := "DPAsWQyuxYkiMRzhngKBPTpWb6WWqxdd1T";
     publicKey := "034496bb34624c8381391273c228681d982668086fcb994e8817fa1907db4ba2ff" |};
  {| passphrase := "2.6-wallet91"; address := "DTv6qvhUK1jks58gAA5YFzShHf3YX9sJVo";
     publicKey := "02ec03ed1353c578a79dec8b20f56f253cc929c5b5a9550598592ab6fbccee1a7e" |};
  {| passphrase := "2.6-wallet92"; address := "DDwTm5FbgvWugYekvjE1dzantAVKxtGbNo";
     publicKey := "025d655104eb6ed75d5fd1b400ba27dad48147a487dd532db12f11bfe5f2be38ca" |};
  {| passphrase := "2.6-wallet96"; address := "DM1pVjbHA3Q4dezcwGBjmT54cLYqpx1NtZ";
     publicKey := "02a8ac3ca69a778e3da70ac63d408f202317de14bb83b8f75d218b32cea7c345e4" |};
  {| passphrase := "2.6-wallet97"; address := "DFEMw6jihEKRJ9CT3k8Rj73PLKDGDyQLU1";
     publicKey := "020faf38e8b2b1ec22e8d5de02b9b7f8114ec5c555a8efd96631eb864c1485b778" |};
  {| passphrase := "2.6-wallet99"; address := "DMca1DGMxj8w59dWYmji1YC1xLP7AmL6rA";
     publicKey := "03959b58145d38e33c9c9eafd0edbde953bdb5afdd45ad4f8bbff7f42c03f1fa89" |}
].


(** ** Configuration

    The [config] object of the script.  [verbose] and [peer] only steer
    logging and the choice of the seed node and are left out.  Optional
    entries are [None] when [undefined]. *)

Record vendorFieldConfig := {
  vf_value : option string;
  vf_random : bool;
}.

Record multiSignatureAsset := {
  asset_participants : list string;   (* passphrase of each participant *)
  asset_min : Z;
}.

(** One entry of [config.multiSignature.passphrases]. *)
Record cosigner := {
  cs_index : Z;
  cs_passphrase : string;
}.

Record multiSignatureConfig := {
  ms_enabled : bool;
  ms_asset : multiSignatureAsset;
  ms_passphrases : list cosigner;
}.

Record payment := {
  pay_recipientId : string;
  pay_amount : string;
}.

Record htlcExpiration := {
  exp_type : Z;      (* 1=EpochTimestamp, 2=BlockHeight *)
  exp_value : Z;
}.

Record htlcLock := {
  lock_secretHash : string;
  lock_expiration : htlcExpiration;
}.

Record htlcClaim := {
  claim_lockTransactionId : option string;
  claim_unlockSecret : string;
}.

Record htlcRefund := {
  refund_lockTransactionId : option string;
}.

Record htlcConfig := {
  htlc_lock : htlcLock;
  htlc_claim : htlcClaim;
  htlc_refund : htlcRefund;
}.

Record config := {
  c_ecdsa : bool;
  c_passphrase : option string;
  c_coldrun : bool;
  c_recipientId : option string;
  c_startNonce : nonce_src;
  c_expiration : option Z;
  c_amount : string;
  c_fee : option string;
  c_vendorField : vendorFieldConfig;
  c_secondPassphrase : option string;
  c_delegateName : option string;
  c_vote : option string;
  c_unvote : option string;
  c_multiSignature : multiSignatureConfig;
  c_ipfs : string;
  c_multiPayments : option (list payment);
  c_htlc : htlcConfig;
}.

(** [config.htlc.lock.expiration.value = v], the one assignment the
    script makes to its configuration. *)
Definition set_lock_expiration_value (c : config) (v : Z) : config :=
  let h := c_htlc c in
  let l := htlc_lock h in
  {| c_ecdsa := c_ecdsa c;
     c_passphrase := c_passphrase c;
     c_coldrun := c_coldrun c;
     c_recipientId := c_recipientId c;
     c_startNonce := c_startNonce c;
     c_expiration := c_expiration c;
     c_amount := c_amount c;
     c_fee := c_fee c;
     c_vendorField := c_vendorField c;
     c_secondPassphrase := c_secondPassphrase c;
     c_delegateName := c_delegateName c;
     c_vote := c_vote c;
     c_unvote := c_unvote c;
     c_multiSignature := c_multiSignature c;
     c_ipfs := c_ipfs c;
     c_multiPayments := c_multiPayments c;
     c_htlc :=
       {| htlc_lock :=
            {| lock_secretHash := lock_secretHash l;
               lock_expiration :=
                 {| exp_type := exp_type (lock_expiration l);
                    exp_value := v |} |};
          htlc_claim := htlc_claim h;
          htlc_refund := htlc_refund h |} |}.

(** The two objects that outlive a call of [main]: the module-level
    [nonces] cache, keyed by sender public key, and [config]. *)
Record state := {
  nonces : gmap string Z;
  cfg : config;
}.

(** The [config] object as the script ships it.  The two digests are
    the values of the [sha256] expressions in the source. *)
Definition initial_config : config :=
  {| c_ecdsa := false;
     c_passphrase := None;
     c_coldrun := false;
     c_recipientId := None;
     c_startNonce := NUndefined;
     c_expiration := None;
     c_amount := "1";
     c_fee := None;
     c_vendorField := {| vf_value := None; vf_random := true |};
     c_secondPassphrase := None;
     c_delegateName := None;
     c_vote := None;
     c_unvote := None;
     c_multiSignature :=
       {| ms_enabled := false;
          ms_asset :=
            {| asset_participants :=
                 [ "multisig participant 1";
                   "multisig participant 2";
                   "multisig participant 3" ];
               asset_min := 2 |};
          ms_passphrases :=
            [ {| cs_index := 0; cs_passphrase := "multisig participant 1" |};
              {| cs_index := 1; cs_passphrase := "multisig participant 2" |};
              {| cs_index := 2; cs_passphrase := "multisig participant 3" |} ] |};
     c_ipfs := "QmYSK2JyM3RyDyB52caZCTKFR3HKniEcMnNJYdk8DQ6KKB";
     c_multiPayments := Some [];
     c_htlc :=
       {| htlc_lock :=
            {| lock_secretHash :=
                 "09b9a28393efd02fcd76a21b0f0f55ba2aad8f3640ff8cae86de033a9cfbd78c";
               lock_expiration :=
                 {| exp_type := 1; exp_value := 52 * 8 |} |};
          htlc_claim :=
            {| claim_lockTransactionId := None;
               claim_unlockSecret := "f5ea877a311ced90cf4524cb489e972f" |};
          htlc_refund := {| refund_lockTransactionId := None |} |} |}.

(** [const nonces = {}] and the shipped configuration. *)
Definition initial_state : state :=
  {| nonces := ∅; cfg := initial_config |}.

(** ** Transactions *)

(** [Enums.TransactionType] of the crypto package, as listed in the
    header of the script. *)
Module TransactionType.
Definition Transfer : Z := 0.
Definition SecondSignature : Z := 1.
Definition DelegateRegistration : Z := 2.
Definition Vote : Z := 3.
Definition MultiSignature : Z := 4.
Definition Ipfs : Z := 5.
Definition MultiPayment : Z := 6.
Definition DelegateResignation : Z := 7.
Definition HtlcLock : Z := 8.
Definition HtlcClaim : Z := 9.
Definition HtlcRefund : Z := 10.
End TransactionType.

(** [Enums.HtlcLockExpirationType]. *)
Module HtlcLockExpirationType.
Definition EpochTimestamp : Z := 1.
Definition BlockHeight : Z := 2.
End HtlcLockExpirationType.

(** The builder constructors of [Transactions.BuilderFactory], and the
    entity builder of the magistrate package. *)
Module BuilderFactory.
Inductive builder :=
| transfer
| secondSignature
| delegateRegistration
| vote
| multiSignature
| ipfs
| multiPayment
| delegateResignation
| htlcLock
| htlcClaim
| htlcRefund
| EntityBuilder.
End BuilderFactory.
Abbreviation builder := BuilderFactory.builder.

(** The dispatch table. *)
Definition builders : gmap Z builder :=
  list_to_map
    [ (0, BuilderFactory.transfer);
      (1, BuilderFactory.secondSignature);
      (2, BuilderFactory.delegateRegistration);
      (3, BuilderFactory.vote);
      (4, BuilderFactory.multiSignature);
      (5, BuilderFactory.ipfs);
      (6, BuilderFactory.multiPayment);
      (7, BuilderFactory.delegateResignation);
      (8, BuilderFactory.htlcLock);
      (9, BuilderFactory.htlcClaim);
      (10, BuilderFactory.htlcRefund);
      (11, BuilderFactory.EntityBuilder) ].

Inductive EntityAction := Register | Update | Resign.

(** The entity asset.  A property of a JS object is absent ([None]) or
    present with a value that may itself be [undefined] ([Some None]),
    as when a positional input field is missing. *)
Record entityAsset := {
  e_type : option Z;
  e_subType : option Z;
  e_action : option EntityAction;
  e_registrationId : option (option string);
  e_data_name : option (option string);
  e_data_ipfsData : option (option string);
}.

Inductive asset :=
| NoAsset
| SignatureAsset (secondPassphrase : string)
| UsernameAsset (username : string)
| VotesAsset (votes : list string)
| MultiSignatureAsset (participants : list string) (min : Z)
| IpfsAsset (ipfs : string)
| PaymentsAsset (payments : list payment)
| HtlcLockAsset (lock : htlcLock)
| HtlcClaimAsset (lockTransactionId : string) (unlockSecret : string)
| HtlcRefundAsset (lockTransactionId : string)
| EntityAsset (entity : entityAsset).

(** The vendor field handed to the builder: the configured text, or
    [Math.random().toString()], the decimal rendering of the drawn
    number, which is never the empty string. *)
Inductive vendor :=
| VendorText (s : string)
| VendorRandom (r : float).

(** How a signature was produced: by the builder's own method, or by
    [Crypto.Hash.signECDSA] when [config.ecdsa] is set. *)
Inductive signature :=
| BuilderSigned (passphrase : string)
| EcdsaSigned (passphrase : string).

(** What the builder has been told by the time [build()] is called. *)
Record transaction := {
  t_builder : builder;
  t_nonce : Z;
  t_senderPublicKey : option string;
  t_fee : option string;
  t_recipientId : option string;
  t_amount : option string;
  t_expiration : option Z;
  t_asset : asset;
  t_vendorField : option vendor;
  t_multiSignatures : list cosigner;     (* multiSign calls, in call order *)
  t_signature : option signature;
  t_secondSignature : option signature;
}.

Inductive error :=
| UnknownType              (* Error("Unknown type") *)
| Version2NotSupported     (* Error("Version 2 not supported.") *)
| TypeError                (* a property read on undefined *)
| BuildError               (* raised by the builder's build() *)
| AssertionError.          (* the assert after build() *)

(** ** Collaborators *)

(** What the wallet endpoint answers; every entry may be missing. *)
Record walletData := {
  w_publicKey : option string;
  w_nonce : nonce_src;
  w_vote : option string;
  w_secondPublicKey : option string;
}.

(** [retrieveSenderWallet] answers [{}] when the request fails. *)
Definition coldWallet : walletData :=
  {| w_publicKey := None; w_nonce := NUndefined;
     w_vote := None; w_secondPublicKey := None |}.

(** The answers one pass of the loop body gets from the network and
    from [Math.random]. *)
Record responses := {
  multiSigWallet : string -> walletData;        (* retrieveSenderWallet *)
  networktime : Z;                              (* retrieveNetworktime, 0 on failure *)
  lockTransactions : option string -> list string;
                                                (* ids answered to retrieveTransaction(sender, 8) *)
  random_count : float;                         (* the draw of the payment count *)
  random_vendorField : float;                   (* the draw of the vendor field *)
}.

(** The answers one call of [main] gets. *)
Record World := {
  blockchain_height : option Z;                 (* None: configureCrypto fails *)
  random_sender : float;
  random_recipient : float;
  senderWalletData : string -> walletData;
  during : nat -> responses;
}.

(** The functions of the crypto package and of the JS runtime.  Input
    tokens are taken to denote integers or no number at all: [ToNumber]
    is the conversion made by unary plus and by [i < quantity], with
    [None] for NaN. *)
Record Externals := {
  ToNumber : string -> option Z;
  parseInt : option string -> option Z;         (* None is NaN *)
  Keys_fromPassphrase : string -> string;       (* the publicKey of the key pair *)
  PublicKey_fromPassphrase : string -> string;
  Address_fromPassphrase : string -> string;
  Address_fromPublicKey : string -> string;
  PublicKey_fromMultiSignatureAsset : Z -> list string -> string;
  Address_fromMultiSignatureAsset : Z -> list string -> string;
  milestone_aip11 : Z -> bool;                  (* getMilestone().aip11 at a height *)
  build_accepts : transaction -> bool;          (* build() does not throw *)
  verify : transaction -> bool;                 (* instance.verify() *)
}.

(** What [main] has done when it hands over to the next prompt. *)
Inductive outcome :=
| Exited                                         (* process.exit() in configureCrypto *)
| Caught (e : error)                             (* the catch block: nothing is posted *)
| Posted (sent : option (list transaction)).     (* postTransaction; None on a cold run *)

Record multiSigIdentity := {
  msi_publicKey : string;
  msi_address : string;
}.

(** The locals [main] computes before its loop. *)
Record session := {
  s_splitInput : list string;
  s_type : Z;
  s_builder : builder;
  s_quantity : nat;
  s_aip11 : bool;
  s_senderSecret : string;
  s_publicKey : string;             (* senderKeys.publicKey *)
  s_recipientId : string;
  s_senderWallet : walletData;
}.

(** What the type dispatch tells the builder. *)
Record fields := {
  f_recipientId : option string;
  f_amount : option string;
  f_expiration : option Z;
  f_asset : asset;
}.

Definition only_asset (a : asset) : fields :=
  {| f_recipientId := None; f_amount := None; f_expiration := None; f_asset := a |}.

(** ** The script *)

(** The action words an entity transaction understands.  Any other
    word, also one that names a property inherited from
    [Object.prototype], spreads to no property at all. *)
Definition mapAction : gmap string EntityAction :=
  {[ "register" := Register; "update" := Update; "resign" := Resign ]}.

(** The entity asset, from the positional input fields. *)
Definition entity_asset (parse : option string -> option Z)
    (splitInput : list string) : entityAsset :=
  let action := splitInput !! 4%nat ≫= (mapAction !!.) in
  let base registrationId name ipfsData :=
    {| e_type := parse (splitInput !! 2%nat);
       e_subType := parse (splitInput !! 3%nat);
       e_action := action;
       e_registrationId := registrationId;
       e_data_name := name;
       e_data_ipfsData := ipfsData |} in
  match action with
  | Some Register =>
      base None (Some (splitInput !! 5%nat)) (Some (splitInput !! 6%nat))
  | Some Update =>
      base (Some (splitInput !! 5%nat)) None (Some (splitInput !! 6%nat))
  | Some Resign =>
      base (Some (splitInput !! 5%nat)) None None
  | None => base None None None
  end.

(** The payments pushed by [for (let i = 0; i < count; i++)]; the index
    [i % testWallets.length] is always within the table. *)
Definition synthesize_payments (count : nat) : list payment :=
  omap (fun i =>
          w ← testWallets !! (i mod length testWallets)%nat;
          Some {| pay_recipientId := address w; pay_amount := "1" |})
       (seq 0 count).

(** [Math.floor(Math.random() * (128 - 64 + 1) + 64)] at the draw [r].
    A NaN count ends the loop at once. *)
Definition payment_count (r : float) : nat :=
  match Math_floor (PrimFloat.add (PrimFloat.mul r (to_float (128 - 64 + 1))) (to_float 64)) with
  | Some n => Z.to_nat n
  | None => 0%nat
  end.

(** [testWallets[Math.floor(r * testWallets.length)]]. *)
Definition random_wallet (r : float) : option wallet :=
  idx ← Math_floor (PrimFloat.mul r (to_float (Z.of_nat (length testWallets))));
  if idx <? 0 then None else testWallets !! Z.to_nat idx.

Definition sign (c : config) (passphrase : string) : signature :=
  if negb (c_ecdsa c) then BuilderSigned passphrase else EcdsaSigned passphrase.

Definition secondSign (c : config) (passphrase : string) : signature :=
  if negb (c_ecdsa c) then BuilderSigned passphrase else EcdsaSigned passphrase.

Definition postTransaction (c : config) (transactions : list transaction)
    : option (list transaction) :=
  if c_coldrun c then None else Some transactions.

(** Truthiness of the [vendorField] variable. *)
Definition truthy_vendor (v : option vendor) : bool :=
  match v with
  | Some (VendorText s) => negb (String.eqb s "")
  | Some (VendorRandom _) => true
  | None => false
  end.

(** The vendor field given to the builder, if any: the configured
    value, replaced by a random one when it is falsy, randomization is
    on and the type is 0, 6 or 8, and passed on when truthy. *)
Definition vendor_field (c : config) (type : Z) (r : float) : option vendor :=
  let vendorField := VendorText <$> vf_value (c_vendorField c) in
  let vendorField :=
    if negb (truthy_vendor vendorField)
       && vf_random (c_vendorField c)
       && ((type =? 0) || (type =? 6) || (type =? 8))
    then Some (VendorRandom r)
    else vendorField in
  if truthy_vendor vendorField then vendorField else None.

(** The assert after [build()]. *)
Definition verification_gate (verified enabled : bool) : bool :=
  verified || enabled.

Section Script.
Context (E : Externals) (W : World).

Definition multiSignatureAddress (c : config) : multiSigIdentity :=
  let a := ms_asset (c_multiSignature c) in
  let publicKeys := PublicKey_fromPassphrase E <$> asset_participants a in
  {| msi_publicKey := PublicKey_fromMultiSignatureAsset E (asset_min a) publicKeys;
     msi_address := Address_fromMultiSignatureAsset E (asset_min a) publicKeys |}.

(** The nonce of the next transaction of the session's sender. *)
Definition next_nonce (ses : session) (R : responses) (st : state) : Z :=
  let c := cfg st in
  match nonces st !! s_publicKey ses with
  | None =>
      let senderNonce :=
        if ms_enabled (c_multiSignature c)
        then w_nonce (multiSigWallet R (msi_address (multiSignatureAddress c)))
        else w_nonce (s_senderWallet ses) in
      BigNumber_make
        (nonce_or (nonce_or (c_startNonce c) senderNonce) (NNumber 0)) + 1
  | Some nonce => nonce + 1
  end.

(** The if/else chain over [type]. *)
Definition populate (ses : session) (R : responses) (st : state)
    : state * (error + fields) :=
  let c := cfg st in
  let type := s_type ses in
  let aip11 := s_aip11 ses in
  if type =? TransactionType.Transfer then
    (st, inr {| f_recipientId := Some (s_recipientId ses);
                f_amount := Some (c_amount c);
                f_expiration := Some (default 0 (c_expiration c));
                f_asset := NoAsset |})
  else if type =? TransactionType.SecondSignature then
    (st, inr (only_asset
                (SignatureAsset (js_or_default (c_secondPassphrase c) "second passphrase"))))
  else if type =? TransactionType.DelegateRegistration then
    (st, inr (only_asset
                (UsernameAsset
                   (js_or_default (c_delegateName c)
                      ("delegate." +:+ String.substring 0%nat 10%nat (s_publicKey ses))))))
  else if type =? TransactionType.Vote then
    let votes :=
      if truthy (c_vote c) then "+" +:+ default "" (c_vote c)
      else if truthy (c_unvote c) then "-" +:+ default "" (c_unvote c)
      else if truthy (w_vote (s_senderWallet ses))
           then "-" +:+ default "" (w_vote (s_senderWallet ses))
           else "+" +:+ s_publicKey ses in
    (st, inr (only_asset (VotesAsset [votes])))
  else if (type =? TransactionType.MultiSignature) && aip11 then
    let a := ms_asset (c_multiSignature c) in
    (st, inr (only_asset
                (MultiSignatureAsset
                   (PublicKey_fromPassphrase E <$> asset_participants a)
                   (asset_min a))))
  else if (type =? TransactionType.Ipfs) && aip11 then
    (st, inr (only_asset (IpfsAsset (c_ipfs c))))
  else if (type =? TransactionType.MultiPayment) && aip11 then
    let payments :=
      match c_multiPayments c with
      | None | Some [] => synthesize_payments (payment_count (random_count R))
      | Some payments => payments
      end in
    (st, inr (only_asset (PaymentsAsset payments)))
  else if (type =? TransactionType.DelegateResignation) && aip11 then
    (st, inr (only_asset NoAsset))
  else if (type =? TransactionType.HtlcLock) && aip11 then
    let expiration := lock_expiration (htlc_lock (c_htlc c)) in
    let c' :=
      if exp_type expiration =? HtlcLockExpirationType.EpochTimestamp then
        if exp_value expiration <? networktime R
        then set_lock_expiration_value c (exp_value expiration + networktime R)
        else c
      else c in
    ({| nonces := nonces st; cfg := c' |},
     inr {| f_recipientId := Some (s_recipientId ses);
            f_amount := Some (c_amount c);
            f_expiration := None;
            f_asset := HtlcLockAsset (htlc_lock (c_htlc c')) |})
  else if (type =? TransactionType.HtlcClaim) && aip11 then
    let claim := htlc_claim (c_htlc c) in
    if truthy (claim_lockTransactionId claim) then
      (st, inr (only_asset
                  (HtlcClaimAsset (default "" (claim_lockTransactionId claim))
                                  (claim_unlockSecret claim))))
    else
      match lockTransactions R (w_publicKey (s_senderWallet ses)) with
      | id :: _ => (st, inr (only_asset (HtlcClaimAsset id (claim_unlockSecret claim))))
      | [] => (st, inl TypeError)
      end
  else if (type =? TransactionType.HtlcRefund) && aip11 then
    let refund := htlc_refund (c_htlc c) in
    if truthy (refund_lockTransactionId refund) then
      (st, inr (only_asset
                  (HtlcRefundAsset (default "" (refund_lockTransactionId refund)))))
    else
      match lockTransactions R (w_publicKey (s_senderWallet ses)) with
      | id :: _ => (st, inr (only_asset (HtlcRefundAsset id)))
      | [] => (st, inl TypeError)
      end
  else if (type =? 11) && aip11 then
    (st, inr (only_asset (EntityAsset (entity_asset (parseInt E) (s_splitInput ses)))))
  else
    (st, inl Version2NotSupported).

(** The loop body up to the call of [build()]: the nonce is issued and
    cached first, then the builder is filled and signed. *)
Definition assemble (ses : session) (i : nat) (st : state)
    : state * (error + transaction) :=
  let R := during W i in
  let nonce := next_nonce ses R st in
  let st1 := {| nonces := <[s_publicKey ses := nonce]> (nonces st); cfg := cfg st |} in
  let fee := if truthy (c_fee (cfg st1)) then c_fee (cfg st1) else None in
  match populate ses R st1 with
  | (st2, inl e) => (st2, inl e)
  | (st2, inr f) =>
      let c := cfg st2 in
      let type := s_type ses in
      let enabled := ms_enabled (c_multiSignature c) in
      let senderPublicKey :=
        if enabled && negb (type =? 4)
        then Some (msi_publicKey (multiSignatureAddress c))
        else Some (s_publicKey ses) in
      let '(senderPublicKey, multiSignatures) :=
        if enabled || (type =? 4) then
          if type =? 4 then
            (w_publicKey (s_senderWallet ses),
             imap (fun i p => {| cs_index := Z.of_nat i; cs_passphrase := p |})
                  (asset_participants (ms_asset (c_multiSignature c))))
          else (senderPublicKey, ms_passphrases (c_multiSignature c))
        else (senderPublicKey, []) in
      let '(signature, secondSignature) :=
        if negb enabled || (type =? 4) then
          (Some (sign c (s_senderSecret ses)),
           if truthy (c_secondPassphrase c)
           then Some (secondSign c (default "" (c_secondPassphrase c)))
           else if truthy (w_secondPublicKey (s_senderWallet ses))
                then Some (secondSign c "second passphrase")
                else None)
        else (None, None) in
      (st2,
       inr {| t_builder := s_builder ses;
              t_nonce := nonce;
              t_senderPublicKey := senderPublicKey;
              t_fee := fee;
              t_recipientId := f_recipientId f;
              t_amount := f_amount f;
              t_expiration := f_expiration f;
              t_asset := f_asset f;
              t_vendorField := vendor_field c type (random_vendorField R);
              t_multiSignatures := multiSignatures;
              t_signature := signature;
              t_secondSignature := secondSignature |})
  end.

(** One pass of the loop body: the payload to push, or what is thrown. *)
Definition iteration (ses : session) (i : nat) (st : state)
    : state * (error + transaction) :=
  match assemble ses i st with
  | (st', inl e) => (st', inl e)
  | (st', inr tx) =>
      if build_accepts E tx then
        if verification_gate (verify E tx)
             (ms_enabled (c_multiSignature (cfg st')))
        then (st', inr tx)
        else (st', inl AssertionError)
      else (st', inl BuildError)
  end.

(** [for (let i = 0; i < quantity; i++)], [n] passes from index [i] on. *)
Fixpoint loop (ses : session) (n i : nat) (st : state)
    (transactions : list transaction) : state * (error + list transaction) :=
  match n with
  | O => (st, inr transactions)
  | S n' =>
      match iteration ses i st with
      | (st', inl e) => (st', inl e)
      | (st', inr payload) =>
          loop ses n' (S i) st' (transactions ++ [payload])
      end
  end.

(** How often the loop test [i < quantity] succeeds, [quantity] being
    the second input token or 1. *)
Definition iterations (quantity : option string) : nat :=
  if truthy quantity then
    match ToNumber E (default "" quantity) with
    | Some q => Z.to_nat q
    | None => 0%nat
    end
  else 1%nat.

(** The part of [main] before the loop. *)
Definition prepare (st : state) (height : Z) (data : string) : error + session :=
  let c := cfg st in
  let splitInput := split data in
  match ToNumber E (default "" (splitInput !! 0%nat)) ≫= (fun type =>
          builder ← builders !! type; Some (type, builder)) with
  | None => inl UnknownType
  | Some (type, builder) =>
      match (if truthy (c_passphrase c) then c_passphrase c
             else passphrase <$> random_wallet (random_sender W)) with
      | None => inl TypeError
      | Some senderSecret =>
          match passphrase <$> random_wallet (random_recipient W) with
          | None => inl TypeError
          | Some recipientSecret =>
              let senderKeys := Keys_fromPassphrase E senderSecret in
              let recipientId :=
                js_or_default (c_recipientId c)
                              (Address_fromPassphrase E recipientSecret) in
              let senderWallet :=
                senderWalletData W (Address_fromPublicKey E senderKeys) in
              inr {| s_splitInput := splitInput;
                     s_type := type;
                     s_builder := builder;
                     s_quantity := iterations (splitInput !! 1%nat);
                     s_aip11 := milestone_aip11 E height;
                     s_senderSecret := senderSecret;
                     s_publicKey := senderKeys;
                     s_recipientId := recipientId;
                     s_senderWallet :=
                       {| w_publicKey :=
                            if truthy (w_publicKey senderWallet)
                            then w_publicKey senderWallet
                            else Some senderKeys;
                          w_nonce := w_nonce senderWallet;
                          w_vote := w_vote senderWallet;
                          w_secondPublicKey := w_secondPublicKey senderWallet |} |}
          end
      end
  end.

Definition main (st : state) (data : string) : state * outcome :=
  match blockchain_height W with
  | None => (st, Exited)
  | Some height =>
      match prepare st height data with
      | inl e => (st, Caught e)
      | inr ses =>
          match loop ses (s_quantity ses) 0 st [] with
          | (st', inl e) => (st', Caught e)
          | (st', inr transactions) =>
              (st', Posted (postTransaction (cfg st') transactions))
          end
      end
  end.
End Script.

(** ** A runtime and a network to run the script against

    Concrete collaborators, used to evaluate [main] on examples: decimal
    input tokens, transparent stand-ins for the key and address
    derivations, a builder that accepts every draft, and a network that
    knows no wallet. *)
Module Demo.

Fixpoint digits (s : string) (acc : Z) : option Z :=
  match s with
  | EmptyString => Some acc
  | String c rest =>
      let n := Z.of_nat (nat_of_ascii c) in
      if (48 <=? n) && (n <=? 57) then digits rest (10 * acc + (n - 48)) else None
  end.

(** Unary plus on a string of decimal digits; the empty string is 0. *)
Definition decimal (s : string) : option Z := digits s 0.

Definition externals (verified : transaction -> bool) : Externals :=
  {| ToNumber := decimal;
     parseInt := fun s => s ≫= (fun s => if String.eqb s "" then None else decimal s);
     Keys_fromPassphrase := fun p => "pub:" +:+ p;
     PublicKey_fromPassphrase := fun p => "pub:" +:+ p;
     Address_fromPassphrase := fun p => "addr:pub:" +:+ p;
     Address_fromPublicKey := fun k => "addr:" +:+ k;
     PublicKey_fromMultiSignatureAsset := fun _ keys => "pub:multi:" +:+ String.concat "," keys;
     Address_fromMultiSignatureAsset := fun _ keys => "addr:multi:" +:+ String.concat "," keys;
     milestone_aip11 := fun _ => true;
     build_accepts := fun _ => true;
     verify := verified |}.

Definition quiet (wallets : string -> walletData) : responses :=
  {| multiSigWallet := wallets;
     networktime := 1000;
     lockTransactions := fun _ => [];
     random_count := 0.5;
     random_vendorField := 0.25 |}.

Definition world (wallets : string -> walletData) : World :=
  {| blockchain_height := Some 4000000;
     random_sender := 0;
     random_recipient := 0.5;
     senderWalletData := wallets;
     during := fun _ => quiet wallets |}.

Definition cold (_ : string) : walletData := coldWallet.

(** A network on which every wallet has the nonce [n]. *)
Definition funded (n : Z) (_ : string) : walletData :=
  {| w_publicKey := None; w_nonce := NNumeral n;
     w_vote := None; w_secondPublicKey := None |}.

(** The locals of [main] for an input of the given type, when the first
    fixture wallet is drawn as sender on a network of cold wallets. *)
Definition session (type : Z) (builder : builder) (input : list string)
    (quantity : nat) (aip11 : bool) : session :=
  {| s_splitInput := input;
     s_type := type;
     s_builder := builder;
     s_quantity := quantity;
     s_aip11 := aip11;
     s_senderSecret := "2.6-wallet1";
     s_publicKey := "pub:2.6-wallet1";
     s_recipientId := "addr:pub:2.6-wallet51";
     s_senderWallet :=
       {| w_publicKey := Some "pub:2.6-wallet1"; w_nonce := NUndefined;
          w_vote := None; w_secondPublicKey := None |} |}.

(** A verifier that rejects the transaction with the given nonce. *)
Definition rejects (n : Z) (tx : transaction) : bool := negb (t_nonce tx =? n).

Definition accepts (_ : transaction) : bool := true.

(** The draft a pass assembles ([blank] if it throws first). *)
Definition blank : transaction :=
  {| t_builder := BuilderFactory.transfer; t_nonce := 0;
     t_senderPublicKey := None; t_fee := None; t_recipientId := None;
     t_amount := None; t_expiration := None; t_asset := NoAsset;
     t_vendorField := None; t_multiSignatures := [];
     t_signature := None; t_secondSignature := None |}.

Definition drafted (r : state * (error + transaction)) : transaction :=
  match r.2 with
  | inr tx => tx
  | inl _ => blank
  end.

(** The same runtime with a builder that refuses an entity asset
    without action. *)
Definition strict : Externals :=
  {| ToNumber := decimal;
     parseInt := fun s => s ≫= (fun s => if String.eqb s "" then None else decimal s);
     Keys_fromPassphrase := fun p => "pub:" +:+ p;
     PublicKey_fromPassphrase := fun p => "pub:" +:+ p;
     Address_fromPassphrase := fun p => "addr:pub:" +:+ p;
     Address_fromPublicKey := fun k => "addr:" +:+ k;
     PublicKey_fromMultiSignatureAsset := fun _ keys => "pub:multi:" +:+ String.concat "," keys;
     Address_fromMultiSignatureAsset := fun _ keys => "addr:multi:" +:+ String.concat "," keys;
     milestone_aip11 := fun _ => true;
     build_accepts := fun tx =>
       match t_asset tx with
       | EntityAsset a => match e_action a with Some _ => true | None => false end
       | _ => true
       end;
     verify := accepts |}.

(** The same runtime before the second protocol version is active. *)
Definition legacy : Externals :=
  {| ToNumber := decimal;
     parseInt := fun s => s ≫= (fun s => if String.eqb s "" then None else decimal s);
     Keys_fromPassphrase := fun p => "pub:" +:+ p;
     PublicKey_fromPassphrase := fun p => "pub:" +:+ p;
     Address_fromPassphrase := fun p => "addr:pub:" +:+ p;
     Address_fromPublicKey := fun k => "addr:" +:+ k;
     PublicKey_fromMultiSignatureAsset := fun _ keys => "pub:multi:" +:+ String.concat "," keys;
     Address_fromMultiSignatureAsset := fun _ keys => "addr:multi:" +:+ String.concat "," keys;
     milestone_aip11 := fun _ => false;
     build_accepts := accepts;
     verify := accepts |}.

(** The shipped configuration with [coldrun] set. *)
Definition cold_run : config :=
  let c := initial_config in
  {| c_ecdsa := c_ecdsa c;
     c_passphrase := c_passphrase c;
     c_coldrun := true;
     c_recipientId := c_recipientId c;
     c_startNonce := c_startNonce c;
     c_expiration := c_expiration c;
     c_amount := c_amount c;
     c_fee := c_fee c;
     c_vendorField := c_vendorField c;
     c_secondPassphrase := c_secondPassphrase c;
     c_delegateName := c_delegateName c;
     c_vote := c_vote c;
     c_unvote := c_unvote c;
     c_multiSignature := c_multiSignature c;
     c_ipfs := c_ipfs c;
     c_multiPayments := c_multiPayments c;
     c_htlc := c_htlc c |}.

(** A network whose time is 1000 during the first pass of a call and
    5000 during the later ones. *)
Definition passing : World :=
  {| blockchain_height := Some 4000000;
     random_sender := 0;
     random_recipient := 0.5;
     senderWalletData := cold;
     during := fun i =>
       {| multiSigWallet := cold;
          networktime := if decide (i = 0%nat) then 1000 else 5000;
          lockTransactions := fun _ => [];
          random_count := 0.5;
          random_vendorField := 0.25 |} |}.

(** A call during which the node cannot be reached. *)
Definition offline : World :=
  {| blockchain_height := None;
     random_sender := 0;
     random_recipient := 0.5;
     senderWalletData := cold;
     during := fun _ => quiet cold |}.

End Demo.

(** The configurations the examples run with: the shipped one with a
    starting nonce, a vendor field text and the multi-signature switch
    set as given. *)
Definition configured (startNonce : nonce_src) (vendorFieldValue : option string)
    (enabled : bool) : config :=
  let c := initial_config in
  {| c_ecdsa := c_ecdsa c;
     c_passphrase := c_passphrase c;
     c_coldrun := c_coldrun c;
     c_recipientId := c_recipientId c;
     c_startNonce := startNonce;
     c_expiration := c_expiration c;
     c_amount := c_amount c;
     c_fee := c_fee c;
     c_vendorField :=
       {| vf_value := vendorFieldValue; vf_random := vf_random (c_vendorField c) |};
     c_secondPassphrase := c_secondPassphrase c;
     c_delegateName := c_delegateName c;
     c_vote := c_vote c;
     c_unvote := c_unvote c;
     c_multiSignature :=
       {| ms_enabled := enabled;
          ms_asset := ms_asset (c_multiSignature c);
          ms_passphrases := ms_passphrases (c_multiSignature c) |};
     c_ipfs := c_ipfs c;
     c_multiPayments := c_multiPayments c;
     c_htlc := c_htlc c |}.

(** The transactions handed to the node by a call of [main]. *)
Definition sent (o : outcome) : list transaction :=
  match o with
  | Posted (Some transactions) => transactions
  | _ => []
  end.

(** The payloads the loop has collected when it ends normally. *)
Definition pushed (r : error + list transaction) : list transaction :=
  match r with
  | inr transactions => transactions
  | inl _ => []
  end.

(** The double 1 - 2^-52, the largest value of the generators that draw
    52 random bits into the mantissa. *)
Definition high_draw : float := 0x1.ffffffffffffep-1%float.

(** The expiration value of the lock asset a dispatch produced. *)
Definition lock_value (a : asset) : option Z :=
  match a with
  | HtlcLockAsset lock => Some (exp_value (lock_expiration lock))
  | _ => None
  end.

(** The first nonce as the specification words it:
    [max(override, seedNonce, 0) + 1]. *)
Definition claimed_first_nonce (override seedNonce : nonce_src) : Z :=
  Z.max (Z.max (BigNumber_make override) (BigNumber_make seedNonce)) 0 + 1.

(** The wallet nonce the first issuance falls back to: that of the
    multi-signature wallet when multi-signature mode is enabled, else
    that of the sender's wallet. *)
Definition seed_nonce (E : Externals) (ses : session) (R : responses)
    (c : config) : nonce_src :=
  if ms_enabled (c_multiSignature c)
  then w_nonce (multiSigWallet R (msi_address (multiSignatureAddress E c)))
  else w_nonce (s_senderWallet ses).

(** The prompt loop: [main] is called on each line typed, always
    re-arming the prompt in its [finally] block, until
    [configureCrypto] ends the process.  Every call meets its own
    network answers. *)
Fixpoint run (E : Externals) (inputs : list (World * string)) (st : state)
    : state * list outcome :=
  match inputs with
  | [] => (st, [])
  | (W, data) :: rest =>
      match main E W st data with
      | (st', Exited) => (st', [Exited])
      | (st', o) =>
          let '(st'', os) := run E rest st' in (st'', o :: os)
      end
  end.

(** The characters of a string. *)
Fixpoint characters (s : string) : list ascii :=
  match s with
  | EmptyString => []
  | String c rest => c :: characters rest
  end.

(** Modelled from the spec: the kinds of transaction that carry a vendor
    field, "Transfer, MultiPayment, HTLC Lock".  The crypto package,
    which decides what the payload of a built transaction keeps, is not
    among the sources. *)
Definition hasVendorField (b : builder) : bool :=
  match b with
  | BuilderFactory.transfer
  | BuilderFactory.multiPayment
  | BuilderFactory.htlcLock => true
  | _ => false
  end.

(** Modelled from the spec: the vendor field of [instance.toJson()], the
    payload that is pushed: the one the builder was given, if the kind
    of the transaction carries one. *)
Definition payload_vendorField (tx : transaction) : option vendor :=
  if hasVendorField (t_builder tx) then t_vendorField tx else None.

(** Modelled from the spec: "unrecognized action strings are a fatal
    input error".  The script has no check of its own; the error is
    raised by the magistrate package, which is not among the sources,
    on an entity asset without action.  Here it is the builder that
    refuses such a draft. *)
Definition refuses_entity_without_action (E : Externals) : Prop :=
  forall tx a,
    t_asset tx = EntityAsset a -> e_action a = None -> build_accepts E tx = false.

(** * Properties *)

(** ** What the type dispatch leaves alone *)

(** Two configurations that differ at most in
    [htlc.lock.expiration.value]. *)
Definition same_but_lock_value (c c' : config) : Prop :=
  c' = c \/ exists v, c' = set_lock_expiration_value c v.

Lemma same_but_lock_value_refl c : same_but_lock_value c c.
Proof. by left. Qed.

Lemma same_multiSignature c c' :
  same_but_lock_value c c' -> c_multiSignature c' = c_multiSignature c.
Proof. by intros [-> | [v ->]]. Qed.

Lemma same_vendorField c c' :
  same_but_lock_value c c' -> c_vendorField c' = c_vendorField c.
Proof. by intros [-> | [v ->]]. Qed.

Section Frame.
Context (E : Externals) (W : World).

Lemma populate_nonces ses R st :
  nonces (populate E ses R st).1 = nonces st.
Proof.
  unfold populate. repeat case_match; reflexivity.
Qed.

Lemma populate_cfg ses R st :
  same_but_lock_value (cfg st) (cfg (populate E ses R st).1).
Proof.
  unfold populate.
  repeat case_match; simpl; try apply same_but_lock_value_refl.
  right. eauto.
Qed.

(** The nonce is cached before anything can fail, and stays cached. *)
Lemma assemble_nonces ses i st :
  nonces (assemble E W ses i st).1
  = <[s_publicKey ses := next_nonce E ses (during W i) st]> (nonces st).
Proof.
  unfold assemble.
  set (st1 := {| nonces := _; cfg := cfg st |}).
  pose proof (populate_nonces ses (during W i) st1) as Hn.
  destruct (populate E ses (during W i) st1) as [st2 [e | f]]; simpl in *.
  - exact Hn.
  - repeat case_match; simpl; exact Hn.
Qed.

Lemma assemble_cfg ses i st :
  same_but_lock_value (cfg st) (cfg (assemble E W ses i st).1).
Proof.
  unfold assemble.
  set (st1 := {| nonces := _; cfg := cfg st |}).
  pose proof (populate_cfg ses (during W i) st1) as Hc.
  destruct (populate E ses (during W i) st1) as [st2 [e | f]]; simpl in *.
  - exact Hc.
  - repeat case_match; simpl; exact Hc.
Qed.

Lemma iteration_state ses i st :
  (iteration E W ses i st).1 = (assemble E W ses i st).1.
Proof.
  unfold iteration.
  destruct (assemble E W ses i st) as [st' [e | tx]]; simpl; [done |].
  repeat case_match; reflexivity.
Qed.

(** A payload that is pushed is the draft that was assembled. *)
Lemma iteration_inr ses i st st' tx :
  iteration E W ses i st = (st', inr tx) ->
  assemble E W ses i st = (st', inr tx).
Proof.
  unfold iteration.
  destruct (assemble E W ses i st) as [st2 [e | tx2]]; [done |].
  repeat case_match; congruence.
Qed.

Lemma assemble_nonce ses i st st' tx :
  assemble E W ses i st = (st', inr tx) ->
  t_nonce tx = next_nonce E ses (during W i) st.
Proof.
  unfold assemble.
  destruct (populate E ses (during W i) _) as [st2 [e | f]]; [done |].
  repeat case_match; intros [= <- <-]; reflexivity.
Qed.

End Frame.

(** ** The nonce sequencer *)

Section Nonces.
Context (E : Externals) (W : World).

(** The nonce issued for a sender without a cached nonce: one more than
    the configured starting nonce if that is set and not 0, else one
    more than the looked-up wallet nonce if there is one, else 1. *)
Lemma next_nonce_first ses R st :
  nonces st !! s_publicKey ses = None ->
  next_nonce E ses R st =
    (if truthy_nonce (c_startNonce (cfg st)) then BigNumber_make (c_startNonce (cfg st))
     else if truthy_nonce (seed_nonce E ses R (cfg st))
          then BigNumber_make (seed_nonce E ses R (cfg st))
          else 0) + 1.
Proof.
  intros Hnone. unfold next_nonce. rewrite Hnone.
  fold (seed_nonce E ses R (cfg st)).
  generalize (seed_nonce E ses R (cfg st)) as seed. intros seed.
  unfold nonce_or.
  destruct (truthy_nonce (c_startNonce (cfg st))) eqn:Hstart.
  - by rewrite Hstart.
  - by destruct (truthy_nonce seed).
Qed.

Lemma next_nonce_cached ses R st previous :
  nonces st !! s_publicKey ses = Some previous ->
  next_nonce E ses R st = previous + 1.
Proof. intros Hsome. unfold next_nonce. by rewrite Hsome. Qed.

(** C1 (amended): for every sender, the first nonce issued in a process
    is one more than the configured starting nonce when that is set (and
    not 0), otherwise one more than the looked-up wallet nonce (that of
    the multi-signature wallet when multi-signature mode is enabled),
    otherwise 1; every later nonce issued for the same sender is the
    previously issued one plus 1, whatever the network answers.  The
    issued nonce is cached even when the pass fails, and it is the nonce
    of the transaction when the pass succeeds. *)
Theorem C1_nonce_issuance ses i st :
  let R := during W i in
  let c := cfg st in
  let issued :=
    match nonces st !! s_publicKey ses with
    | None =>
        (if truthy_nonce (c_startNonce c) then BigNumber_make (c_startNonce c)
         else if truthy_nonce (seed_nonce E ses R c)
              then BigNumber_make (seed_nonce E ses R c)
              else 0) + 1
    | Some previous => previous + 1
    end in
  nonces (iteration E W ses i st).1 !! s_publicKey ses = Some issued
  /\ forall tx, (iteration E W ses i st).2 = inr tx -> t_nonce tx = issued.
Proof.
  intros R c issued.
  assert (Hnext : next_nonce E ses (during W i) st = issued).
  { subst issued. destruct (nonces st !! s_publicKey ses) as [previous |] eqn:Hc.
    - by apply next_nonce_cached.
    - by apply next_nonce_first. }
  split.
  - rewrite iteration_state, assemble_nonces, lookup_insert_eq. by rewrite Hnext.
  - intros tx Htx.
    destruct (iteration E W ses i st) as [st' r] eqn:Hit. simpl in Htx. subst r.
    apply iteration_inr, assemble_nonce in Hit. by rewrite Hit.
Qed.

End Nonces.

(** C1 as stated fails: [max(override, seedNonce, 0) + 1] is not what is
    issued: with [config.startNonce = 5] and a wallet whose nonce is
    "10", the first transfer carries nonce 6, not 11. *)
Lemma C1_first_nonce_not_max :
  t_nonce <$> sent (main (Demo.externals Demo.accepts) (Demo.world (Demo.funded 10))
                         {| nonces := ∅; cfg := configured (NNumber 5) None false |}
                         "0").2 = [6]
  /\ claimed_first_nonce (NNumber 5) (NNumeral 10) = 11.
Proof. split; vm_compute; reflexivity. Qed.

(** C1, at a sender without cached nonce and with [config.startNonce = 5]. *)
Lemma C1_nonce_issuance_witness :
  nonces (iteration (Demo.externals Demo.accepts) (Demo.world Demo.cold)
            (Demo.session 0 BuilderFactory.transfer ["0"] 1 true) 0
            {| nonces := ∅; cfg := configured (NNumber 5) None false |}).1
    !! "pub:2.6-wallet1" = Some 6
  /\ forall tx,
      (iteration (Demo.externals Demo.accepts) (Demo.world Demo.cold)
         (Demo.session 0 BuilderFactory.transfer ["0"] 1 true) 0
         {| nonces := ∅; cfg := configured (NNumber 5) None false |}).2 = inr tx ->
      t_nonce tx = 6.
Proof.
  exact (C1_nonce_issuance (Demo.externals Demo.accepts) (Demo.world Demo.cold)
           (Demo.session 0 BuilderFactory.transfer ["0"] 1 true) 0
           {| nonces := ∅; cfg := configured (NNumber 5) None false |}).
Defined.

(** ** The batch loop *)

Section Batch.
Context (E : Externals) (W : World).

(** [k + m] passes are [k] passes followed, if none of them throws, by
    [m] more. *)
Lemma loop_split ses k m i st transactions :
  loop E W ses (k + m) i st transactions =
    match loop E W ses k i st transactions with
    | (st1, inr transactions1) => loop E W ses m (i + k) st1 transactions1
    | (st1, inl e) => (st1, inl e)
    end.
Proof.
  revert i st transactions.
  induction k as [| k IH]; intros i st transactions; simpl.
  - by rewrite Nat.add_0_r.
  - destruct (iteration E W ses i st) as [st' [e | payload]]; [done |].
    rewrite IH. by replace (S i + k)%nat with (i + S k)%nat by lia.
Qed.

(** A pass that throws ends the loop with what it threw. *)
Lemma loop_throws ses k n i st transactions st1 transactions1 st2 e :
  (k < n)%nat ->
  loop E W ses k i st transactions = (st1, inr transactions1) ->
  iteration E W ses (i + k) st1 = (st2, inl e) ->
  loop E W ses n i st transactions = (st2, inl e).
Proof.
  intros Hlt Hk Hfail.
  replace n with (k + S (n - S k))%nat by lia.
  rewrite loop_split, Hk. simpl. by rewrite Hfail.
Qed.

(** The payloads a loop pushes carry consecutive nonces, starting with
    the one its first pass issues. *)
Lemma loop_nonces ses n i st transactions st' transactions' :
  loop E W ses n i st transactions = (st', inr transactions') ->
  exists new,
    transactions' = (transactions ++ new)%list
    /\ t_nonce <$> new
       = (fun k => next_nonce E ses (during W i) st + Z.of_nat k) <$> seq 0 n.
Proof.
  revert i st transactions.
  induction n as [| n IH]; intros i st transactions; simpl.
  - intros [= <- <-]. exists []. by rewrite app_nil_r.
  - destruct (iteration E W ses i st) as [st1 [e | payload]] eqn:Hit; [done |].
    intros Hloop. destruct (IH _ _ _ Hloop) as (new & -> & Hnew).
    exists (payload :: new). split; [by rewrite <- app_assoc |].
    pose proof (iteration_state E W ses i st) as Hstate.
    rewrite Hit in Hstate. simpl in Hstate.
    assert (Hcached : nonces st1 !! s_publicKey ses
                      = Some (next_nonce E ses (during W i) st)).
    { by rewrite Hstate, assemble_nonces, lookup_insert_eq. }
    apply iteration_inr, assemble_nonce in Hit.
    rewrite (next_nonce_cached E ses _ st1 _ Hcached) in Hnew.
    rewrite fmap_cons, Hit, Hnew, Z.add_0_r. f_equal.
    rewrite <- fmap_S_seq, <- list_fmap_compose.
    apply list_fmap_ext. intros _ k _. simpl. lia.
Qed.

(** C2 (amended): when one transaction of a requested batch fails, be it
    with an input error or at the verification assert, the whole batch
    is aborted: the passes after it are not run, the transactions built
    before it are not submitted, and [main] ends in its catch block with
    the state the failing pass left. *)
Theorem C2_failure_aborts_batch st data height ses k st1 transactions st2 e :
  blockchain_height W = Some height ->
  prepare E W st height data = inr ses ->
  (k < s_quantity ses)%nat ->
  loop E W ses k 0 st [] = (st1, inr transactions) ->
  iteration E W ses k st1 = (st2, inl e) ->
  main E W st data = (st2, Caught e) /\ sent (main E W st data).2 = [].
Proof.
  intros Hheight Hprepare Hlt Hk Hfail.
  assert (Hmain : main E W st data = (st2, Caught e)).
  { unfold main. rewrite Hheight, Hprepare.
    by rewrite (loop_throws ses k (s_quantity ses) 0 st [] st1 transactions st2 e). }
  by rewrite Hmain.
Qed.

End Batch.

(** C2 as stated fails: the second of two transfers fails the
    verification assert and nothing is posted, although the first transfer was built and verified, and
    both nonces stay consumed. *)
Lemma C2_partial_batch_not_submitted :
  let E := Demo.externals (Demo.rejects 2) in
  let W := Demo.world Demo.cold in
  (loop E W (Demo.session 0 BuilderFactory.transfer ["0"; "2"] 2 true) 1 0
     initial_state []).2
    = (loop (Demo.externals Demo.accepts) W
         (Demo.session 0 BuilderFactory.transfer ["0"; "2"] 2 true) 1 0
         initial_state []).2
  /\ length (pushed (loop E W (Demo.session 0 BuilderFactory.transfer ["0"; "2"] 2 true)
                        1 0 initial_state []).2) = 1%nat
  /\ (main E W initial_state "0 2").2 = Caught AssertionError
  /\ sent (main E W initial_state "0 2").2 = []
  /\ nonces (main E W initial_state "0 2").1 !! "pub:2.6-wallet1" = Some 2.
Proof. vm_compute. repeat split; done. Qed.

(** C2, at a batch of two transfers whose second fails verification. *)
Lemma C2_failure_aborts_batch_witness :
  let E := Demo.externals (Demo.rejects 2) in
  let W := Demo.world Demo.cold in
  let ses := Demo.session 0 BuilderFactory.transfer ["0"; "2"] 2 true in
  main E W initial_state "0 2"
    = ((iteration E W ses 1 (iteration E W ses 0 initial_state).1).1,
       Caught AssertionError)
  /\ sent (main E W initial_state "0 2").2 = [].
Proof.
  intros E W ses.
  apply (C2_failure_aborts_batch E W initial_state "0 2" 4000000 ses 1
           (iteration E W ses 0 initial_state).1
           (sent (Posted (Some (match (iteration E W ses 0 initial_state).2 with
                                | inr tx => [tx] | inl _ => [] end))))).
  - reflexivity.
  - vm_compute. reflexivity.
  - simpl. lia.
  - vm_compute. reflexivity.
  - vm_compute. reflexivity.
Defined.

(** ** The verification gate *)

Section Gate.
Context (E : Externals) (W : World).

(** C3: a draft that the builder accepts is rejected by the assert, and
    so never pushed (the loop ends with the assertion error, whatever
    had been collected), whenever multi-signature mode is disabled and
    its verification fails; with multi-signature mode enabled it passes
    whatever its verification says. *)
Theorem C3_verification_gate ses i st st' tx :
  assemble E W ses i st = (st', inr tx) ->
  build_accepts E tx = true ->
  (ms_enabled (c_multiSignature (cfg st)) = false ->
   verify E tx = false ->
   iteration E W ses i st = (st', inl AssertionError)
   /\ forall n transactions,
       loop E W ses (S n) i st transactions = (st', inl AssertionError))
  /\ (ms_enabled (c_multiSignature (cfg st)) = true ->
      iteration E W ses i st = (st', inr tx)).
Proof.
  intros Hasm Hbuild.
  pose proof (assemble_cfg E W ses i st) as Hcfg.
  rewrite Hasm in Hcfg. simpl in Hcfg. apply same_multiSignature in Hcfg.
  split.
  - intros Hoff Hverify.
    assert (Hit : iteration E W ses i st = (st', inl AssertionError)).
    { unfold iteration. by rewrite Hasm, Hbuild, Hverify, Hcfg, Hoff. }
    split; [exact Hit |].
    intros n transactions. simpl. by rewrite Hit.
  - intros Hon. unfold iteration. rewrite Hasm, Hbuild, Hcfg, Hon.
    unfold verification_gate. by rewrite orb_true_r.
Qed.

(** Without multi-signature mode a draft that verifies is pushed. *)
Lemma gate_passes_verified ses i st st' tx :
  assemble E W ses i st = (st', inr tx) ->
  build_accepts E tx = true ->
  verify E tx = true ->
  iteration E W ses i st = (st', inr tx).
Proof.
  intros Hasm Hbuild Hverify. unfold iteration.
  by rewrite Hasm, Hbuild, Hverify.
Qed.

End Gate.

(** C3, at a transfer that fails verification, without and with
    multi-signature mode. *)
Lemma C3_verification_gate_witness :
  let E := Demo.externals (Demo.rejects 1) in
  let W := Demo.world Demo.cold in
  let ses := Demo.session 0 BuilderFactory.transfer ["0"] 1 true in
  let off := initial_state in
  let on := {| nonces := ∅; cfg := configured NUndefined None true |} in
  iteration E W ses 0 off = ((assemble E W ses 0 off).1, inl AssertionError)
  /\ iteration E W ses 0 on
     = ((assemble E W ses 0 on).1, inr (Demo.drafted (assemble E W ses 0 on))).
Proof.
  intros E W ses off on. split.
  - apply (C3_verification_gate E W ses 0 off (assemble E W ses 0 off).1
             (Demo.drafted (assemble E W ses 0 off))).
    + vm_compute. reflexivity.
    + reflexivity.
    + reflexivity.
    + vm_compute. reflexivity.
  - apply (C3_verification_gate E W ses 0 on (assemble E W ses 0 on).1
             (Demo.drafted (assemble E W ses 0 on))).
    + vm_compute. reflexivity.
    + reflexivity.
    + reflexivity.
Defined.

(** ** The expiration resolver *)

(** C4: an HTLC lock is sent with the configured expiration value [v]
    itself when the expiration is an epoch timestamp and [v] is at least
    the network time [t], with [v + t] when it is an epoch timestamp
    below [t], and with [v] whenever it is a block height. *)
Theorem C4_expiration_resolution (E : Externals) ses R st :
  s_type ses = TransactionType.HtlcLock ->
  s_aip11 ses = true ->
  let expiration := lock_expiration (htlc_lock (c_htlc (cfg st))) in
  let v := exp_value expiration in
  let t := networktime R in
  let resolved :=
    match (populate E ses R st).2 with
    | inr f => lock_value (f_asset f)
    | inl _ => None
    end in
  (exp_type expiration = HtlcLockExpirationType.EpochTimestamp ->
   t <= v -> resolved = Some v)
  /\ (exp_type expiration = HtlcLockExpirationType.EpochTimestamp ->
      v < t -> resolved = Some (v + t))
  /\ (exp_type expiration = HtlcLockExpirationType.BlockHeight ->
      resolved = Some v).
Proof.
  intros Htype Haip expiration v t resolved.
  subst resolved. unfold populate. rewrite Htype, Haip. simpl.
  fold expiration. fold v. fold t.
  repeat split.
  - intros -> Hle. simpl. destruct (Z.ltb_spec v t); [lia | done].
  - intros -> Hlt. simpl. destruct (Z.ltb_spec v t); [done | lia].
  - intros ->. done.
Qed.

(** C4, at the shipped expiration of 416 seconds and network time 1000. *)
Lemma C4_expiration_resolution_witness :
  let E := Demo.externals Demo.accepts in
  let ses := Demo.session 8 BuilderFactory.htlcLock ["8"] 1 true in
  match (populate E ses (Demo.quiet Demo.cold) initial_state).2 with
  | inr f => lock_value (f_asset f)
  | inl _ => None
  end = Some (416 + 1000).
Proof.
  intros E ses.
  apply (C4_expiration_resolution E ses (Demo.quiet Demo.cold) initial_state
           eq_refl eq_refl).
  - reflexivity.
  - simpl. lia.
Defined.

(** ** Signing *)

Section Signing.
Context (E : Externals) (W : World).

(** C5: a transaction built with multi-signature mode enabled, of any
    kind but the multi-signature registration, has as sender public key
    the key derived from the configured participants and threshold, is
    multi-signed once per configured (index, passphrase) pair, in
    configuration order and at the configured indices, and carries
    neither a sender signature nor a second signature. *)
Theorem C5_multisig_spend ses i st st' tx :
  ms_enabled (c_multiSignature (cfg st)) = true ->
  s_type ses <> TransactionType.MultiSignature ->
  iteration E W ses i st = (st', inr tx) ->
  let ms := c_multiSignature (cfg st) in
  t_senderPublicKey tx
    = Some (PublicKey_fromMultiSignatureAsset E (asset_min (ms_asset ms))
              (PublicKey_fromPassphrase E <$> asset_participants (ms_asset ms)))
  /\ t_multiSignatures tx = ms_passphrases ms
  /\ t_signature tx = None
  /\ t_secondSignature tx = None.
Proof.
  intros Hon Htype Hit ms. subst ms.
  apply iteration_inr in Hit. revert Hit. unfold assemble.
  set (st1 := {| nonces := _; cfg := cfg st |}).
  pose proof (populate_cfg E ses (during W i) st1) as Hcfg.
  apply same_multiSignature in Hcfg.
  destruct (populate E ses (during W i) st1) as [st2 [e | f]]; [done |].
  simpl in Hcfg. rewrite Hcfg, Hon.
  apply Z.eqb_neq in Htype. unfold TransactionType.MultiSignature in Htype.
  rewrite Htype. simpl.
  intros [= <- <-]. simpl. by rewrite Hcfg.
Qed.

Lemma assemble_vendorField ses i st st' tx :
  assemble E W ses i st = (st', inr tx) ->
  t_vendorField tx
  = vendor_field (cfg st) (s_type ses) (random_vendorField (during W i)).
Proof.
  unfold assemble.
  set (st1 := {| nonces := _; cfg := cfg st |}).
  pose proof (populate_cfg E ses (during W i) st1) as Hcfg.
  apply same_vendorField in Hcfg.
  destruct (populate E ses (during W i) st1) as [st2 [e | f]]; [done |].
  simpl in Hcfg.
  assert (Hvf : forall type r,
             vendor_field (cfg st2) type r = vendor_field (cfg st) type r).
  { intros type r. unfold vendor_field. by rewrite Hcfg. }
  repeat case_match; intros [= <- <-]; simpl; apply Hvf.
Qed.

Lemma carries_vendor_field (type : Z) :
  (type =? 0) || (type =? 6) || (type =? 8) = true <-> type ∈ [0; 6; 8].
Proof.
  rewrite !orb_true_iff, !Z.eqb_eq, !elem_of_cons, elem_of_nil. tauto.
Qed.

(** What the script calls the builder's [vendorField] with: a
    configured text, for any type; else a random value when
    randomization is enabled and the type is 0, 6 or 8; else it makes
    no call. *)
Lemma called_vendor_field ses i st st' tx :
  iteration E W ses i st = (st', inr tx) ->
  let vf := c_vendorField (cfg st) in
  (truthy (vf_value vf) = true ->
   t_vendorField tx = VendorText <$> vf_value vf)
  /\ (truthy (vf_value vf) = false ->
      vf_random vf = true ->
      s_type ses ∈ [0; 6; 8] ->
      t_vendorField tx = Some (VendorRandom (random_vendorField (during W i))))
  /\ (truthy (vf_value vf) = false ->
      vf_random vf = false \/ s_type ses ∉ [0; 6; 8] ->
      t_vendorField tx = None).
Proof.
  intros Hit vf. subst vf.
  apply iteration_inr, assemble_vendorField in Hit. rewrite Hit. clear Hit.
  unfold vendor_field, truthy.
  pose proof (carries_vendor_field (s_type ses)) as Hkinds.
  destruct (vf_value (c_vendorField (cfg st))) as [v |]; simpl;
    [destruct (String.eqb v "") eqn:Hv; simpl; rewrite ?Hv; simpl |].
  - split; [done |]. split.
    + intros _ -> Hin. apply Hkinds in Hin. by rewrite Hin.
    + intros _ [-> | Hout]; simpl; [by rewrite Hv |].
      destruct (_ || _) eqn:Hk; [| by rewrite andb_false_r; simpl; rewrite Hv].
      contradict Hout. by apply carries_vendor_field.
  - split; [done |]. split; intros; done.
  - split; [done |]. split.
    + intros _ -> Hin. apply Hkinds in Hin. by rewrite Hin.
    + intros _ [-> | Hout]; simpl; [done |].
      destruct (_ || _) eqn:Hk; [| by rewrite andb_false_r].
      contradict Hout. by apply carries_vendor_field.
Qed.

Lemma assemble_builder ses i st st' tx :
  assemble E W ses i st = (st', inr tx) -> t_builder tx = s_builder ses.
Proof.
  unfold assemble.
  destruct (populate E ses (during W i) _) as [st2 [e | f]]; [done |].
  repeat case_match; by intros [= <- <-].
Qed.

(** The builders of the dispatch table whose kind carries a vendor
    field are those of the types 0, 6 and 8. *)
Lemma carrying_kinds (type : Z) (b : builder) :
  builders !! type = Some b ->
  hasVendorField b = true <-> type ∈ [0; 6; 8].
Proof.
  intros Hb. apply elem_of_list_to_map_2 in Hb.
  rewrite !elem_of_cons, elem_of_nil.
  repeat (apply elem_of_cons in Hb as [[= -> ->] | Hb];
          [simpl; intuition (discriminate || lia) |]).
  by apply elem_of_nil in Hb.
Qed.

(** C6: in the payload of a pushed transaction a vendor field is present
    only if its kind is one of those that carry one, Transfer,
    MultiPayment or HTLC Lock, and the configuration enables it (a text
    is configured or randomization is on); for these kinds it is the
    configured text when there is one, and a random value when no text
    is configured and randomization is enabled.  The script itself hands
    a random value to the builder for these three kinds only. *)
Theorem C6_vendor_field ses i st st' tx :
  builders !! s_type ses = Some (s_builder ses) ->
  iteration E W ses i st = (st', inr tx) ->
  let vf := c_vendorField (cfg st) in
  let carrying :=
    [TransactionType.Transfer; TransactionType.MultiPayment; TransactionType.HtlcLock] in
  (payload_vendorField tx <> None ->
   s_type ses ∈ carrying /\ (truthy (vf_value vf) = true \/ vf_random vf = true))
  /\ (s_type ses ∈ carrying ->
      truthy (vf_value vf) = true ->
      payload_vendorField tx = VendorText <$> vf_value vf)
  /\ (s_type ses ∈ carrying ->
      truthy (vf_value vf) = false ->
      vf_random vf = true ->
      payload_vendorField tx
      = Some (VendorRandom (random_vendorField (during W i))))
  /\ (forall r, t_vendorField tx = Some (VendorRandom r) -> s_type ses ∈ carrying).
Proof.
  intros Htable Hit vf carrying. subst vf carrying.
  unfold TransactionType.Transfer, TransactionType.MultiPayment,
    TransactionType.HtlcLock.
  pose proof (iteration_inr E W ses i st st' tx Hit) as Hasm.
  pose proof (assemble_builder ses i st st' tx Hasm) as Hbuilder.
  destruct (called_vendor_field ses i st st' tx Hit) as (Htext & Hrandom & Hnone).
  pose proof (carrying_kinds _ _ Htable) as Hkinds.
  assert (Hdraw : forall r, t_vendorField tx = Some (VendorRandom r) ->
                            s_type ses ∈ [0; 6; 8]).
  { intros r Hr.
    destruct (truthy (vf_value (c_vendorField (cfg st)))) eqn:Htruthy.
    - rewrite (Htext eq_refl) in Hr.
      by destruct (vf_value (c_vendorField (cfg st))).
    - destruct (decide (s_type ses ∈ [0; 6; 8])) as [Hin | Hout]; [exact Hin |].
      rewrite (Hnone eq_refl (or_intror Hout)) in Hr. discriminate. }
  unfold payload_vendorField. rewrite Hbuilder.
  destruct (hasVendorField (s_builder ses)) eqn:Hhas.
  - assert (Hin : s_type ses ∈ [0; 6; 8]) by (by apply Hkinds).
    split; [| split; [| split]].
    + intros Hpresent. split; [exact Hin |].
      destruct (truthy (vf_value (c_vendorField (cfg st)))) eqn:Htruthy; [by left |].
      right. destruct (vf_random (c_vendorField (cfg st))) eqn:Hr; [done |].
      exfalso. apply Hpresent. apply Hnone; [done | by left].
    + intros _ Htruthy. by apply Htext.
    + intros _ Htruthy Hr. by apply Hrandom.
    + exact Hdraw.
  - assert (Hout : s_type ses ∉ [0; 6; 8]).
    { intros Hin. apply Hkinds in Hin. congruence. }
    split; [done |]. split; [by intros Hin |]. split; [by intros Hin |].
    exact Hdraw.
Qed.

End Signing.

(** C5, at a transfer from the shipped multi-signature wallet. *)
Lemma C5_multisig_spend_witness :
  let E := Demo.externals Demo.accepts in
  let W := Demo.world Demo.cold in
  let ses := Demo.session 0 BuilderFactory.transfer ["0"] 1 true in
  let on := {| nonces := ∅; cfg := configured NUndefined None true |} in
  let tx := Demo.drafted (assemble E W ses 0 on) in
  t_senderPublicKey tx
    = Some ("pub:multi:pub:multisig participant 1,"
            +:+ "pub:multisig participant 2,pub:multisig participant 3")
  /\ t_multiSignatures tx
     = [ {| cs_index := 0; cs_passphrase := "multisig participant 1" |};
         {| cs_index := 1; cs_passphrase := "multisig participant 2" |};
         {| cs_index := 2; cs_passphrase := "multisig participant 3" |} ]
  /\ t_signature tx = None
  /\ t_secondSignature tx = None.
Proof.
  intros E W ses on tx.
  apply (C5_multisig_spend E W ses 0 on (assemble E W ses 0 on).1 tx).
  - reflexivity.
  - simpl. unfold TransactionType.MultiSignature. lia.
  - vm_compute. reflexivity.
Defined.

(** C6, at a transfer with and without a configured text. *)
Lemma C6_vendor_field_witness :
  let E := Demo.externals Demo.accepts in
  let W := Demo.world Demo.cold in
  let transfer := Demo.session 0 BuilderFactory.transfer ["0"] 1 true in
  let st := {| nonces := ∅; cfg := configured NUndefined (Some "memo") false |} in
  payload_vendorField (Demo.drafted (iteration E W transfer 0 st))
    = Some (VendorText "memo")
  /\ payload_vendorField (Demo.drafted (iteration E W transfer 0 initial_state))
     = Some (VendorRandom 0.25).
Proof.
  intros E W transfer st. split.
  - apply (C6_vendor_field E W transfer 0 st (iteration E W transfer 0 st).1
             (Demo.drafted (iteration E W transfer 0 st))).
    + reflexivity.
    + vm_compute. reflexivity.
    + simpl. apply list_elem_of_here.
    + reflexivity.
  - apply (C6_vendor_field E W transfer 0 initial_state
             (iteration E W transfer 0 initial_state).1
             (Demo.drafted (iteration E W transfer 0 initial_state))).
    + reflexivity.
    + vm_compute. reflexivity.
    + simpl. apply list_elem_of_here.
    + reflexivity.
    + reflexivity.
Defined.

(** ** Entity transactions *)

Lemma mapAction_unknown (word : string) :
  word ∉ ["register"; "update"; "resign"] -> mapAction !! word = None.
Proof.
  rewrite !not_elem_of_cons. intros (Hregister & Hupdate & Hresign & _).
  unfold mapAction.
  rewrite !lookup_insert_ne by done. by apply lookup_singleton_ne.
Qed.

Section EntityBuild.
Context (E : Externals) (W : World).

(** An entity pass throws nothing before [build()]. *)
Lemma assemble_entity ses i st :
  s_type ses = 11 ->
  s_aip11 ses = true ->
  exists st' tx,
    assemble E W ses i st = (st', inr tx)
    /\ t_asset tx = EntityAsset (entity_asset (parseInt E) (s_splitInput ses)).
Proof.
  intros Htype Haip. unfold assemble, populate. rewrite Htype, Haip. simpl.
  repeat case_match; eauto.
Qed.

(** The entity asset by action word: any word but "register", "update"
    and "resign", or none, yields an asset with no action, no
    registration id and no data. *)
Lemma entity_asset_fields ses i st :
  s_type ses = 11 ->
  s_aip11 ses = true ->
  exists st' tx a,
    assemble E W ses i st = (st', inr tx)
    /\ t_asset tx = EntityAsset a
    /\ let field n := s_splitInput ses !! n in
       (field 4%nat = Some "register" ->
        e_action a = Some Register
        /\ e_data_name a = Some (field 5%nat)
        /\ e_data_ipfsData a = Some (field 6%nat)
        /\ e_registrationId a = None)
       /\ (field 4%nat = Some "update" ->
           e_action a = Some Update
           /\ e_registrationId a = Some (field 5%nat)
           /\ e_data_ipfsData a = Some (field 6%nat)
           /\ e_data_name a = None)
       /\ (field 4%nat = Some "resign" ->
           e_action a = Some Resign
           /\ e_registrationId a = Some (field 5%nat)
           /\ e_data_name a = None
           /\ e_data_ipfsData a = None)
       /\ ((forall word, field 4%nat = Some word ->
                         word ∉ ["register"; "update"; "resign"]) ->
           e_action a = None
           /\ e_registrationId a = None
           /\ e_data_name a = None
           /\ e_data_ipfsData a = None).
Proof.
  intros Htype Haip.
  destruct (assemble_entity ses i st Htype Haip) as (st' & tx & Hasm & Hasset).
  exists st', tx, (entity_asset (parseInt E) (s_splitInput ses)).
  split; [exact Hasm |]. split; [exact Hasset |].
  unfold entity_asset. repeat split.
  1-12: by rewrite H.
  all: destruct (s_splitInput ses !! 4%nat) as [word |] eqn:Hword; simpl;
    [rewrite (mapAction_unknown word (H word eq_refl)) |]; done.
Qed.

(** C7: in an entity build the action word "register" yields an asset
    with the Register action, the given name and content hash and no
    registration id; "update" and "resign" yield the Update and Resign
    actions with the registration id (and, for an update, the content
    hash); any other action word, or none, leaves the asset without
    action, and with a builder that refuses such an asset this is fatal
    for the transaction: the pass ends with the error, nothing is
    pushed and the loop ends. *)
Theorem C7_entity_asset ses i st :
  s_type ses = 11 ->
  s_aip11 ses = true ->
  exists st' tx a,
    assemble E W ses i st = (st', inr tx)
    /\ t_asset tx = EntityAsset a
    /\ let field n := s_splitInput ses !! n in
       (field 4%nat = Some "register" ->
        e_action a = Some Register
        /\ e_data_name a = Some (field 5%nat)
        /\ e_data_ipfsData a = Some (field 6%nat)
        /\ e_registrationId a = None)
       /\ (field 4%nat = Some "update" ->
           e_action a = Some Update
           /\ e_registrationId a = Some (field 5%nat)
           /\ e_data_ipfsData a = Some (field 6%nat)
           /\ e_data_name a = None)
       /\ (field 4%nat = Some "resign" ->
           e_action a = Some Resign
           /\ e_registrationId a = Some (field 5%nat)
           /\ e_data_name a = None
           /\ e_data_ipfsData a = None)
       /\ ((forall word, field 4%nat = Some word ->
                         word ∉ ["register"; "update"; "resign"]) ->
           (e_action a = None
            /\ e_registrationId a = None
            /\ e_data_name a = None
            /\ e_data_ipfsData a = None)
           /\ (refuses_entity_without_action E ->
               iteration E W ses i st = (st', inl BuildError)
               /\ forall n transactions,
                   loop E W ses (S n) i st transactions = (st', inl BuildError))).
Proof.
  intros Htype Haip.
  destruct (entity_asset_fields ses i st Htype Haip)
    as (st' & tx & a & Hasm & Hasset & Hregister & Hupdate & Hresign & Hother).
  exists st', tx, a.
  split; [exact Hasm |]. split; [exact Hasset |].
  split; [exact Hregister |]. split; [exact Hupdate |]. split; [exact Hresign |].
  intros Hword. destruct (Hother Hword) as (Haction & Hrest).
  split; [by split |].
  intros Hrefuses.
  assert (Hit : iteration E W ses i st = (st', inl BuildError)).
  { unfold iteration. by rewrite Hasm, (Hrefuses tx a Hasset Haction). }
  split; [exact Hit |].
  intros n transactions. simpl. by rewrite Hit.
Qed.

End EntityBuild.

(** C7, at the registration of "my_business" and at the unknown action
    word "frobnicate". *)
Lemma C7_entity_asset_witness :
  let W := Demo.world Demo.cold in
  let register :=
    Demo.session 11 BuilderFactory.EntityBuilder
      ["11"; "1"; "1"; "1"; "register"; "my_business"; "Qm"] 1 true in
  let unknown :=
    Demo.session 11 BuilderFactory.EntityBuilder
      ["11"; "1"; "1"; "1"; "frobnicate"; "my_business"; "Qm"] 1 true in
  (exists st' tx a,
      assemble Demo.strict W register 0 initial_state = (st', inr tx)
      /\ t_asset tx = EntityAsset a
      /\ e_action a = Some Register
      /\ e_data_name a = Some (Some "my_business")
      /\ e_data_ipfsData a = Some (Some "Qm")
      /\ e_registrationId a = None)
  /\ (iteration Demo.strict W unknown 0 initial_state).2 = inl BuildError.
Proof.
  intros W register unknown. split.
  - destruct (C7_entity_asset Demo.strict W register 0 initial_state eq_refl eq_refl)
      as (st' & tx & a & Hasm & Hasset & Hregister & _).
    exists st', tx, a.
    split; [exact Hasm |]. split; [exact Hasset |].
    apply Hregister. reflexivity.
  - destruct (C7_entity_asset Demo.strict W unknown 0 initial_state eq_refl eq_refl)
      as (st' & tx & a & _ & _ & _ & _ & _ & Hother).
    destruct Hother as [_ Hfatal].
    + intros word [= <-]. rewrite !not_elem_of_cons. repeat split; try discriminate.
      apply not_elem_of_nil.
    + destruct Hfatal as [Hit _].
      * intros tx' a' Hasset' Haction'. simpl. rewrite Hasset', Haction'. reflexivity.
      * rewrite Hit. reflexivity.
Defined.

(** With such a builder the request ends in the catch block of [main]. *)
Example unknown_action_is_caught :
  (main Demo.strict (Demo.world Demo.cold) initial_state
        "11 1 1 1 frobnicate my_business Qm").2 = Caught BuildError.
Proof. vm_compute. reflexivity. Qed.

(** ** Synthesized multi-payments *)

Lemma testWallets_length : length testWallets = 58%nat.
Proof. reflexivity. Qed.

(** The recipient of the i-th synthesized payment. *)
Lemma rotation_in_range (i : nat) :
  is_Some (testWallets !! (i mod length testWallets)%nat).
Proof.
  apply lookup_lt_is_Some. apply Nat.mod_upper_bound.
  by rewrite testWallets_length.
Qed.

Lemma omap_total {A B} (f : A -> option B) (g : A -> B) (l : list A) :
  (forall x, f x = Some (g x)) -> omap f l = g <$> l.
Proof.
  intros Hfg. induction l as [| x l IH]; [done |].
  simpl. rewrite Hfg. simpl. by f_equal.
Qed.

Lemma synthesize_from (count : nat) :
  synthesize_payments count
  = (fun i =>
       {| pay_recipientId :=
            default "" (address <$> testWallets !! (i mod length testWallets)%nat);
          pay_amount := "1" |}) <$> seq 0 count.
Proof.
  unfold synthesize_payments. apply omap_total. intros i.
  by destruct (rotation_in_range i) as [w ->].
Qed.

(** Every synthesized list has exactly the drawn number of payments,
    each of amount "1", the i-th to the fixture wallet at position
    i modulo the size of the pool. *)
Lemma synthesize_payments_length (count : nat) :
  length (synthesize_payments count) = count.
Proof.
  by rewrite synthesize_from, length_fmap, length_seq.
Qed.

Lemma synthesize_payments_lookup (count i : nat) :
  (i < count)%nat ->
  exists w,
    testWallets !! (i mod length testWallets)%nat = Some w
    /\ synthesize_payments count !! i
       = Some {| pay_recipientId := address w; pay_amount := "1" |}.
Proof.
  intros Hlt. destruct (rotation_in_range i) as [w Hw]. exists w.
  split; [exact Hw |].
  rewrite synthesize_from, list_lookup_fmap.
  rewrite lookup_seq_lt by done. rewrite Nat.add_0_l.
  cbv [fmap option_fmap option_map]. by rewrite Hw.
Qed.

(** The count at the ends and in the middle of the range of draws. *)
Example payment_count_least : payment_count 0 = 64%nat.
Proof. vm_compute. reflexivity. Qed.

Example payment_count_half : payment_count 0.5 = 96%nat.
Proof. vm_compute. reflexivity. Qed.

(** Just below the two largest doubles under 1 the count is still 128. *)
Example payment_count_most : payment_count 0x1.ffffffffffffdp-1 = 128%nat.
Proof. vm_compute. reflexivity. Qed.

(** C8: the count of synthesized payments is not always within 64..128.
    At the draw 1 - 2^-52 the product with 65 rounds to the double just
    below 65, and adding 64 to that rounds up to 129: the loop then
    pushes 129 payments. *)
Theorem C8_count_at_high_draw :
  Prim2SF high_draw = S754_finite false (2 ^ 53 - 2) (-53)
  /\ PrimFloat.ltb high_draw 1 = true
  /\ payment_count high_draw = 129%nat
  /\ length (synthesize_payments (payment_count high_draw)) = 129%nat.
Proof.
  split; [vm_compute; reflexivity |]. split; [vm_compute; reflexivity |].
  assert (Hcount : payment_count high_draw = 129%nat) by (vm_compute; reflexivity).
  split; [exact Hcount |].
  by rewrite synthesize_payments_length.
Qed.

(** ** Unknown types *)

Section UnknownType.
Context (E : Externals) (W : World).

(** A pass for a type of the second protocol version, when that version
    is not active yet, throws after its nonce was issued and cached. *)
Lemma version2_consumes_nonce ses i st :
  s_aip11 ses = false ->
  4 <= s_type ses ->
  (iteration E W ses i st).2 = inl Version2NotSupported
  /\ nonces (iteration E W ses i st).1 !! s_publicKey ses
     = Some (next_nonce E ses (during W i) st).
Proof.
  intros Haip Htype. split.
  - unfold iteration, assemble, populate. rewrite Haip.
    unfold TransactionType.Transfer, TransactionType.SecondSignature,
      TransactionType.DelegateRegistration, TransactionType.Vote.
    destruct (Z.eqb_spec (s_type ses) 0); [lia |].
    destruct (Z.eqb_spec (s_type ses) 1); [lia |].
    destruct (Z.eqb_spec (s_type ses) 2); [lia |].
    destruct (Z.eqb_spec (s_type ses) 3); [lia |].
    by rewrite !andb_false_r.
  - by rewrite iteration_state, assemble_nonces, lookup_insert_eq.
Qed.

Lemma next_nonce_fresh ses R st :
  nonces st !! s_publicKey ses <> Some (next_nonce E ses R st).
Proof.
  unfold next_nonce.
  destruct (nonces st !! s_publicKey ses) as [previous |]; [| done].
  intros [= Heq]. lia.
Qed.

(** C9: a request whose type has no entry in the dispatch table is
    rejected before any nonce is issued: [main] leaves the state, and so
    the nonce cache, as it found it, and ends in its catch block with
    "Unknown type" (if it gets past [configureCrypto] at all).  A pass
    that fails later, as with "Version 2 not supported.", has changed
    the cache entry of its sender by then. *)
Theorem C9_unknown_type_issues_no_nonce st data :
  ToNumber E (default "" (split data !! 0%nat)) ≫= (builders !!.) = None ->
  (main E W st data).1 = st
  /\ (forall height, blockchain_height W = Some height ->
                     (main E W st data).2 = Caught UnknownType)
  /\ (forall ses i st0,
        s_aip11 ses = false -> 4 <= s_type ses ->
        (iteration E W ses i st0).2 = inl Version2NotSupported
        /\ nonces (iteration E W ses i st0).1 !! s_publicKey ses
           <> nonces st0 !! s_publicKey ses).
Proof.
  intros Hunknown.
  assert (Hprepare : forall height, prepare E W st height data = inl UnknownType).
  { intros height. unfold prepare.
    destruct (ToNumber E (default "" (split data !! 0%nat))) as [type |];
      simpl in *; [| done].
    by rewrite Hunknown. }
  split; [| split].
  - unfold main. destruct (blockchain_height W); [| done]. by rewrite Hprepare.
  - intros height Hheight. unfold main. by rewrite Hheight, Hprepare.
  - intros ses i st0 Haip Htype.
    destruct (version2_consumes_nonce ses i st0 Haip Htype) as [Hthrow Hcache].
    split; [exact Hthrow |].
    rewrite Hcache. intros Heq. symmetry in Heq.
    by apply next_nonce_fresh in Heq.
Qed.

End UnknownType.

(** C9, at a request for type 12. *)
Lemma C9_unknown_type_issues_no_nonce_witness :
  let E := Demo.externals Demo.accepts in
  let W := Demo.world Demo.cold in
  (main E W initial_state "12 3").1 = initial_state
  /\ (main E W initial_state "12 3").2 = Caught UnknownType.
Proof.
  intros E W.
  destruct (C9_unknown_type_issues_no_nonce E W initial_state "12 3" eq_refl)
    as (Hstate & Houtcome & _).
  split; [exact Hstate |]. apply (Houtcome 4000000). reflexivity.
Defined.

(** ** HTLC locks and the shared configuration *)

(** The configuration after the dispatch of an HTLC lock with an epoch
    timestamp, and the asset it is sent with. *)
Lemma populate_lock (E : Externals) ses R st :
  s_type ses = TransactionType.HtlcLock ->
  s_aip11 ses = true ->
  exp_type (lock_expiration (htlc_lock (c_htlc (cfg st))))
    = HtlcLockExpirationType.EpochTimestamp ->
  let v := exp_value (lock_expiration (htlc_lock (c_htlc (cfg st)))) in
  let t := networktime R in
  let c' := if v <? t then set_lock_expiration_value (cfg st) (v + t) else cfg st in
  populate E ses R st
  = ({| nonces := nonces st; cfg := c' |},
     inr {| f_recipientId := Some (s_recipientId ses);
            f_amount := Some (c_amount (cfg st));
            f_expiration := None;
            f_asset := HtlcLockAsset (htlc_lock (c_htlc c')) |}).
Proof.
  intros Htype Haip Hepoch v t c'. subst c' v t.
  unfold populate. rewrite Htype, Haip. simpl. by rewrite Hepoch.
Qed.

(** Whatever the dispatch produced is what the draft carries. *)
Lemma assemble_populated (E : Externals) (W : World) ses i st st2 f :
  populate E ses (during W i)
    {| nonces := <[s_publicKey ses := next_nonce E ses (during W i) st]> (nonces st);
       cfg := cfg st |} = (st2, inr f) ->
  exists tx, assemble E W ses i st = (st2, inr tx) /\ t_asset tx = f_asset f.
Proof.
  intros Hpop. unfold assemble. rewrite Hpop.
  repeat case_match; eauto.
Qed.

(** C10: resolving the epoch-timestamp expiration of an HTLC lock writes
    the resolved value back into the configuration; every later HTLC
    lock of the process that finds a stored value that is at least the
    network time of its own pass is sent with that stored value, and
    leaves the configuration as it is. *)
Theorem C10_expiration_written_back (E : Externals) (W : World) ses i st :
  s_type ses = TransactionType.HtlcLock ->
  s_aip11 ses = true ->
  exp_type (lock_expiration (htlc_lock (c_htlc (cfg st))))
    = HtlcLockExpirationType.EpochTimestamp ->
  let v := exp_value (lock_expiration (htlc_lock (c_htlc (cfg st)))) in
  let t := networktime (during W i) in
  let resolved := if v <? t then v + t else v in
  exists st1 tx1,
    assemble E W ses i st = (st1, inr tx1)
    /\ lock_value (t_asset tx1) = Some resolved
    /\ exp_value (lock_expiration (htlc_lock (c_htlc (cfg st1)))) = resolved
    /\ forall (W' : World) ses' j st',
        cfg st' = cfg st1 ->
        s_type ses' = TransactionType.HtlcLock ->
        s_aip11 ses' = true ->
        networktime (during W' j) <= resolved ->
        exists st2 tx2,
          assemble E W' ses' j st' = (st2, inr tx2)
          /\ lock_value (t_asset tx2) = Some resolved
          /\ cfg st2 = cfg st1.
Proof.
  intros Htype Haip Hepoch v t resolved.
  set (st0 := {| nonces := <[s_publicKey ses := next_nonce E ses (during W i) st]> (nonces st);
                 cfg := cfg st |}).
  pose proof (populate_lock E ses (during W i) st0 Htype Haip Hepoch) as Hpop.
  simpl in Hpop. fold v t in Hpop.
  destruct (assemble_populated E W ses i st _ _ Hpop) as (tx1 & Hasm & Hasset).
  eexists _, tx1. split; [exact Hasm |].
  assert (Hvalue :
    exp_value (lock_expiration (htlc_lock (c_htlc
      (if v <? t then set_lock_expiration_value (cfg st) (v + t) else cfg st))))
    = resolved).
  { subst resolved. by destruct (v <? t). }
  assert (Hkind :
    exp_type (lock_expiration (htlc_lock (c_htlc
      (if v <? t then set_lock_expiration_value (cfg st) (v + t) else cfg st))))
    = HtlcLockExpirationType.EpochTimestamp).
  { by destruct (v <? t). }
  split; [| split].
  - rewrite Hasset. simpl. by rewrite Hvalue.
  - exact Hvalue.
  - intros W' ses' j st' Hcfg Htype' Haip' Hle.
    set (st0' := {| nonces := <[s_publicKey ses' := next_nonce E ses' (during W' j) st']>
                                (nonces st');
                    cfg := cfg st' |}).
    simpl in Hcfg.
    assert (Hepoch' : exp_type (lock_expiration (htlc_lock (c_htlc (cfg st0'))))
                      = HtlcLockExpirationType.EpochTimestamp)
      by (simpl; by rewrite Hcfg).
    pose proof (populate_lock E ses' (during W' j) st0' Htype' Haip' Hepoch') as Hpop'.
    simpl in Hpop'. rewrite Hcfg, Hvalue in Hpop'.
    destruct (Z.ltb_spec resolved (networktime (during W' j))) as [Hlt | _]; [lia |].
    destruct (assemble_populated E W' ses' j st' _ _ Hpop') as (tx2 & Hasm' & Hasset').
    eexists _, tx2. split; [exact Hasm' |]. split; [| done].
    rewrite Hasset'. simpl. by rewrite Hvalue.
Qed.

(** C10, at two consecutive locks with the shipped expiration. *)
Lemma C10_expiration_written_back_witness :
  let E := Demo.externals Demo.accepts in
  let W := Demo.world Demo.cold in
  let ses := Demo.session 8 BuilderFactory.htlcLock ["8"; "2"] 2 true in
  exists st1 tx1,
    assemble E W ses 0 initial_state = (st1, inr tx1)
    /\ lock_value (t_asset tx1) = Some 1416
    /\ exp_value (lock_expiration (htlc_lock (c_htlc (cfg st1)))) = 1416
    /\ exists st2 tx2,
        assemble E W ses 1 st1 = (st2, inr tx2)
        /\ lock_value (t_asset tx2) = Some 1416
        /\ cfg st2 = cfg st1.
Proof.
  intros E W ses.
  destruct (C10_expiration_written_back E W ses 0 initial_state eq_refl eq_refl eq_refl)
    as (st1 & tx1 & Hasm & Hsent & Hstored & Hlater).
  exists st1, tx1.
  split; [exact Hasm |]. split; [exact Hsent |]. split; [exact Hstored |].
  apply (Hlater W ses 1%nat st1 eq_refl eq_refl eq_refl).
  simpl. lia.
Defined.

(** * Further properties of the script *)

(** ** Input tokens *)

(** X1: splitting the input line at spaces loses nothing: the tokens
    joined by single spaces give the line back, no token contains a
    space, and there is one token more than there are spaces, so the
    type token always exists. *)
Theorem split_join (data : string) :
  String.concat " " (split data) = data
  /\ Forall (fun token => " "%char ∉ characters token) (split data)
  /\ length (split data)
     = S (length (filter (fun c => c = " "%char) (characters data))).
Proof.
  induction data as [| c rest (Hjoin & Hfree & Hcount)].
  - split; [done | split; [| done]].
    constructor; [| constructor]. apply not_elem_of_nil.
  - cbn [split characters]. rewrite filter_cons.
    destruct (split rest) as [| token tokens] eqn:Hs; [by simpl in Hcount |].
    destruct (Ascii.eqb_spec c " "%char) as [-> | Hc].
    + rewrite decide_True by done. split; [| split].
      * simpl in *. by rewrite Hjoin.
      * constructor; [apply not_elem_of_nil | exact Hfree].
      * simpl in *. by rewrite Hcount.
    + rewrite decide_False by done. split; [| split].
      * destruct tokens; simpl in *; by rewrite <- Hjoin.
      * apply Forall_cons in Hfree as [Htoken Htokens].
        constructor; [| exact Htokens].
        simpl. rewrite not_elem_of_cons. split; [congruence | exact Htoken].
      * exact Hcount.
Qed.

(** ** Passes of the loop *)

Lemma same_but_lock_value_trans c1 c2 c3 :
  same_but_lock_value c1 c2 -> same_but_lock_value c2 c3 ->
  same_but_lock_value c1 c3.
Proof.
  intros [-> | [v ->]] [-> | [w ->]];
    [by left | right; by exists w | right; by exists v | right; by exists w].
Qed.

Lemma same_coldrun c c' :
  same_but_lock_value c c' -> c_coldrun c' = c_coldrun c.
Proof. by intros [-> | [v ->]]. Qed.

Lemma same_amount c c' :
  same_but_lock_value c c' -> c_amount c' = c_amount c.
Proof. by intros [-> | [v ->]]. Qed.

Lemma same_expiration c c' :
  same_but_lock_value c c' -> c_expiration c' = c_expiration c.
Proof. by intros [-> | [v ->]]. Qed.

Lemma same_fee c c' :
  same_but_lock_value c c' -> c_fee c' = c_fee c.
Proof. by intros [-> | [v ->]]. Qed.

Lemma same_ecdsa c c' :
  same_but_lock_value c c' -> c_ecdsa c' = c_ecdsa c.
Proof. by intros [-> | [v ->]]. Qed.

Lemma same_secondPassphrase c c' :
  same_but_lock_value c c' -> c_secondPassphrase c' = c_secondPassphrase c.
Proof. by intros [-> | [v ->]]. Qed.

Section Passes.
Context (E : Externals) (W : World).

Lemma iteration_nonces ses i st :
  nonces (iteration E W ses i st).1
  = <[s_publicKey ses := next_nonce E ses (during W i) st]> (nonces st).
Proof. by rewrite iteration_state, assemble_nonces. Qed.

Lemma iteration_cfg ses i st :
  same_but_lock_value (cfg st) (cfg (iteration E W ses i st).1).
Proof. rewrite iteration_state. apply assemble_cfg. Qed.

Lemma loop_cfg ses n i st transactions :
  same_but_lock_value (cfg st) (cfg (loop E W ses n i st transactions).1).
Proof.
  revert i st transactions.
  induction n as [| n IH]; intros i st transactions; simpl.
  - apply same_but_lock_value_refl.
  - pose proof (iteration_cfg ses i st) as Hit.
    destruct (iteration E W ses i st) as [st1 [e | payload]]; [exact Hit |].
    eapply same_but_lock_value_trans; [exact Hit | apply IH].
Qed.

(** Every payload the loop pushes is the result of a pass that ended
    normally, in a state whose configuration differs from the initial
    one at most in the lock expiration value. *)
Lemma loop_passes ses n i st transactions st' transactions' :
  loop E W ses n i st transactions = (st', inr transactions') ->
  exists new,
    transactions' = (transactions ++ new)%list
    /\ length new = n
    /\ forall k tx,
        new !! k = Some tx ->
        exists st_k st_k',
          same_but_lock_value (cfg st) (cfg st_k)
          /\ iteration E W ses (i + k) st_k = (st_k', inr tx).
Proof.
  revert i st transactions.
  induction n as [| n IH]; intros i st transactions; simpl.
  - intros [= <- <-]. exists []. rewrite app_nil_r. by repeat split.
  - destruct (iteration E W ses i st) as [st1 [e | payload]] eqn:Hit; [done |].
    intros Hloop. destruct (IH _ _ _ Hloop) as (new & -> & Hlen & Hnew).
    exists (payload :: new). split; [by rewrite <- app_assoc |].
    split; [simpl; by rewrite Hlen |].
    intros [| k] tx Hk; simpl in Hk.
    + injection Hk as <-. exists st, st1. rewrite Nat.add_0_r.
      split; [apply same_but_lock_value_refl | exact Hit].
    + destruct (Hnew k tx Hk) as (st_k & st_k' & Hsame & Hpass).
      exists st_k, st_k'. split.
      * eapply same_but_lock_value_trans; [| exact Hsame].
        pose proof (iteration_cfg ses i st) as Hc. by rewrite Hit in Hc.
      * by replace (i + S k)%nat with (S i + k)%nat by lia.
Qed.

(** The cache after a loop of at least one pass: the sender's entry is
    the first nonce issued plus the number of further passes that were
    started.  When the loop ends normally all passes were. *)
Lemma loop_cache ses n i st transactions :
  (0 < n)%nat ->
  exists k,
    (k < n)%nat
    /\ nonces (loop E W ses n i st transactions).1
       = <[s_publicKey ses := next_nonce E ses (during W i) st + Z.of_nat k]> (nonces st)
    /\ (forall transactions',
          (loop E W ses n i st transactions).2 = inr transactions' -> k = (n - 1)%nat).
Proof.
  revert i st transactions.
  induction n as [| n IH]; intros i st transactions Hn; [lia |]. simpl.
  pose proof (iteration_nonces ses i st) as Hcache.
  destruct (iteration E W ses i st) as [st1 [e | payload]] eqn:Hit; simpl in Hcache.
  - exists 0%nat. simpl. rewrite Z.add_0_r. split; [lia |]. split; [done |]. done.
  - destruct n as [| n].
    + exists 0%nat. simpl. rewrite Z.add_0_r. split; [lia |]. by split.
    + destruct (IH (S i) st1 (transactions ++ [payload])%list ltac:(lia))
        as (k & Hk & Hnonces & Hall).
      exists (S k). split; [lia |]. split.
      * rewrite Hnonces, Hcache, insert_insert_eq.
        rewrite (next_nonce_cached E ses _ st1 (next_nonce E ses (during W i) st)).
        -- f_equal. lia.
        -- by rewrite Hcache, lookup_insert_eq.
      * intros transactions' Hok. rewrite (Hall _ Hok). lia.
Qed.

(** A pushed payload was accepted by the builder and passed the assert. *)
Lemma iteration_gate ses i st st' tx :
  iteration E W ses i st = (st', inr tx) ->
  build_accepts E tx = true
  /\ (verify E tx = true \/ ms_enabled (c_multiSignature (cfg st)) = true).
Proof.
  intros Hit.
  pose proof (iteration_inr E W ses i st st' tx Hit) as Hasm.
  pose proof (assemble_cfg E W ses i st) as Hcfg.
  rewrite Hasm in Hcfg. simpl in Hcfg. apply same_multiSignature in Hcfg.
  revert Hit. unfold iteration. rewrite Hasm, Hcfg.
  destruct (build_accepts E tx); [| done].
  unfold verification_gate.
  destruct (verify E tx), (ms_enabled _); try done; auto.
Qed.

End Passes.

(** ** Calls of [main] *)

Section Calls.
Context (E : Externals) (W : World).

Lemma random_wallet_fixture (r : float) (w : wallet) :
  random_wallet r = Some w -> w ∈ testWallets.
Proof.
  unfold random_wallet. destruct (Math_floor _) as [idx |]; simpl; [| done].
  destruct (idx <? 0); [done |]. intros Hw. by eapply list_elem_of_lookup_2.
Qed.

(** What the tokens of the input line become. *)
Lemma prepare_type st height data ses :
  prepare E W st height data = inr ses ->
  ToNumber E (default "" (split data !! 0%nat)) = Some (s_type ses)
  /\ builders !! s_type ses = Some (s_builder ses)
  /\ s_quantity ses = iterations E (split data !! 1%nat).
Proof.
  unfold prepare.
  destruct (ToNumber E (default "" (split data !! 0%nat))) as [type |]; simpl; [| done].
  destruct (builders !! type) as [builder |] eqn:Hbuilder; simpl; [| done].
  repeat case_match; try done; by intros [= <-].
Qed.

(** The recipient of a call: the configured one, else the address of a
    fixture wallet's passphrase. *)
Lemma prepare_recipient st height data ses :
  prepare E W st height data = inr ses ->
  if truthy (c_recipientId (cfg st))
  then c_recipientId (cfg st) = Some (s_recipientId ses)
  else exists w, w ∈ testWallets
                 /\ s_recipientId ses = Address_fromPassphrase E (passphrase w).
Proof.
  unfold prepare.
  destruct (ToNumber E (default "" (split data !! 0%nat)) ≫= _) as [[type builder] |];
    [| done].
  destruct (if truthy (c_passphrase (cfg st)) then _ else _) as [senderSecret |];
    [| done].
  destruct (random_wallet (random_recipient W)) as [w |] eqn:Hw; simpl; [| done].
  intros [= <-]. simpl. unfold js_or_default, truthy.
  destruct (c_recipientId (cfg st)) as [r |]; simpl;
    [destruct (String.eqb r ""); simpl; [| done] |];
    exists w; (split; [by eapply random_wallet_fixture | done]).
Qed.

(** X2: the locals of a call that reaches the loop.  The type token is
    a number with an entry in the dispatch table; the sender secret is
    the configured passphrase when there is one, else the passphrase of
    a fixture wallet; the recipient is the configured one, else the
    address of a fixture wallet's passphrase; the sender's wallet record
    has the sender's own key when the network did not report one. *)
Theorem prepare_identities st height data ses :
  prepare E W st height data = inr ses ->
  let c := cfg st in
  (s_splitInput ses = split data
   /\ ToNumber E (default "" (split data !! 0%nat)) = Some (s_type ses)
   /\ builders !! s_type ses = Some (s_builder ses)
   /\ s_quantity ses = iterations E (split data !! 1%nat)
   /\ s_aip11 ses = milestone_aip11 E height)
  /\ (if truthy (c_passphrase c) then c_passphrase c = Some (s_senderSecret ses)
      else exists w, w ∈ testWallets /\ s_senderSecret ses = passphrase w)
  /\ s_publicKey ses = Keys_fromPassphrase E (s_senderSecret ses)
  /\ (if truthy (c_recipientId c) then c_recipientId c = Some (s_recipientId ses)
      else exists w, w ∈ testWallets
                     /\ s_recipientId ses = Address_fromPassphrase E (passphrase w))
  /\ (w_publicKey (s_senderWallet ses)
      = let reported :=
          w_publicKey (senderWalletData W (Address_fromPublicKey E (s_publicKey ses))) in
        if truthy reported then reported else Some (s_publicKey ses)).
Proof.
  intros Hprep c. subst c. unfold prepare in Hprep.
  destruct (ToNumber E (default "" (split data !! 0%nat))) as [type |]; simpl in Hprep;
    [| done].
  destruct (builders !! type) as [builder |] eqn:Hbuilder; simpl in Hprep; [| done].
  destruct (truthy (c_passphrase (cfg st))) eqn:Hpass.
  - destruct (c_passphrase (cfg st)) as [secret |] eqn:Hsecret; [| done].
    destruct (random_wallet (random_recipient W)) as [w' |] eqn:Hw'; simpl in Hprep;
      [| done].
    injection Hprep as <-. simpl.
    repeat split; try done.
    unfold js_or_default, truthy.
    destruct (c_recipientId (cfg st)) as [r |]; simpl.
    + destruct (String.eqb r ""); simpl; [| done].
      exists w'. split; [by eapply random_wallet_fixture | done].
    + exists w'. split; [by eapply random_wallet_fixture | done].
  - destruct (random_wallet (random_sender W)) as [w |] eqn:Hw; simpl in Hprep; [| done].
    destruct (random_wallet (random_recipient W)) as [w' |] eqn:Hw'; simpl in Hprep;
      [| done].
    injection Hprep as <-. simpl.
    split; [done |]. split.
    { exists w. split; [by eapply random_wallet_fixture | done]. }
    split; [done |]. split; [| done].
    unfold js_or_default, truthy.
    destruct (c_recipientId (cfg st)) as [r |]; simpl.
    + destruct (String.eqb r ""); simpl; [| done].
      exists w'. split; [by eapply random_wallet_fixture | done].
    + exists w'. split; [by eapply random_wallet_fixture | done].
Qed.

(** X3: a call that posts has run exactly the requested number of
    passes, and the posted transactions carry consecutive nonces, the
    first being the one the first pass issued. *)
Theorem main_posts_consecutive_nonces st data height ses transactions :
  blockchain_height W = Some height ->
  prepare E W st height data = inr ses ->
  (main E W st data).2 = Posted (Some transactions) ->
  length transactions = s_quantity ses
  /\ t_nonce <$> transactions
     = (fun k => next_nonce E ses (during W 0) st + Z.of_nat k)
         <$> seq 0 (s_quantity ses).
Proof.
  intros Hheight Hprepare. unfold main. rewrite Hheight, Hprepare.
  destruct (loop E W ses (s_quantity ses) 0 st []) as [st' [e | pushed]] eqn:Hloop;
    simpl; [done |].
  unfold postTransaction. destruct (c_coldrun (cfg st')); [done |].
  intros [= <-].
  destruct (loop_nonces E W ses _ _ _ _ _ _ Hloop) as (new & Heq & Hnonces).
  simpl in Heq. subst pushed. split; [| exact Hnonces].
  apply (f_equal length) in Hnonces. by rewrite !length_fmap, length_seq in Hnonces.
Qed.

(** The cache after the loop of a call. *)
Lemma loop_cache_entries ses st pk :
  (pk <> s_publicKey ses ->
   nonces (loop E W ses (s_quantity ses) 0 st []).1 !! pk = nonces st !! pk)
  /\ (forall n, nonces st !! pk = Some n ->
      exists m, n <= m
        /\ nonces (loop E W ses (s_quantity ses) 0 st []).1 !! pk = Some m).
Proof.
  destruct (s_quantity ses) as [| q] eqn:Hq.
  - simpl. split; [done |]. intros n Hn. exists n. split; [lia | done].
  - destruct (loop_cache E W ses (S q) 0 st [] ltac:(lia)) as (k & _ & Hcache & _).
    rewrite Hcache. split.
    + intros Hne. by rewrite lookup_insert_ne.
    + intros n Hn. destruct (decide (pk = s_publicKey ses)) as [-> | Hne].
      * rewrite lookup_insert_eq. eexists. split; [| done].
        rewrite (next_nonce_cached E ses _ st n Hn). lia.
      * rewrite lookup_insert_ne by done. exists n. split; [lia | done].
Qed.

Lemma main_cache_monotone st data pk n :
  nonces st !! pk = Some n ->
  exists m, n <= m /\ nonces (main E W st data).1 !! pk = Some m.
Proof.
  intros Hn. unfold main.
  destruct (blockchain_height W) as [height |]; [| exists n; split; [lia | done]].
  destruct (prepare E W st height data) as [e | ses];
    [exists n; split; [lia | done] |].
  destruct (loop_cache_entries ses st pk) as [_ Hmono].
  destruct (Hmono n Hn) as (m & Hle & Hm).
  exists m. split; [exact Hle |].
  by destruct (loop E W ses (s_quantity ses) 0 st []) as [st' [e | pushed]].
Qed.

Lemma main_cfg_same st data :
  same_but_lock_value (cfg st) (cfg (main E W st data).1).
Proof.
  unfold main.
  destruct (blockchain_height W) as [height |]; [| apply same_but_lock_value_refl].
  destruct (prepare E W st height data) as [e | ses];
    [apply same_but_lock_value_refl |].
  pose proof (loop_cfg E W ses (s_quantity ses) 0 st []) as Hloop.
  by destruct (loop E W ses (s_quantity ses) 0 st []) as [st' [e | pushed]].
Qed.

(** X4: no call of [main] removes or lowers an entry of the nonce cache,
    and a call that reaches the loop leaves the entries of all other
    senders as they are. *)
Theorem main_nonce_cache st data :
  (forall pk n,
      nonces st !! pk = Some n ->
      exists m, n <= m /\ nonces (main E W st data).1 !! pk = Some m)
  /\ (forall height ses pk,
        blockchain_height W = Some height ->
        prepare E W st height data = inr ses ->
        pk <> s_publicKey ses ->
        nonces (main E W st data).1 !! pk = nonces st !! pk).
Proof.
  split.
  - intros pk n. apply main_cache_monotone.
  - intros height ses pk Hheight Hprepare Hne. unfold main.
    rewrite Hheight, Hprepare.
    destruct (loop_cache_entries ses st pk) as [Hframe _]. specialize (Hframe Hne).
    by destruct (loop E W ses (s_quantity ses) 0 st []) as [st' [e | pushed]].
Qed.

End Calls.

Section CallsFrame.
Context (E : Externals) (W : World).

(** Only the dispatch of an HTLC lock touches the state. *)
Lemma populate_unchanged ses R st :
  s_type ses <> TransactionType.HtlcLock ->
  (populate E ses R st).1 = st.
Proof.
  intros Htype. unfold populate.
  repeat case_match; try reflexivity;
    match goal with
    | H : (_ =? TransactionType.HtlcLock) && _ = true |- _ =>
        apply andb_true_iff in H as [H%Z.eqb_eq _]; contradiction
    end.
Qed.

Lemma iteration_cfg_unchanged ses i st :
  s_type ses <> TransactionType.HtlcLock ->
  cfg (iteration E W ses i st).1 = cfg st.
Proof.
  intros Htype. rewrite iteration_state. unfold assemble.
  set (st1 := {| nonces := _; cfg := cfg st |}).
  pose proof (populate_unchanged ses (during W i) st1 Htype) as Hpop.
  destruct (populate E ses (during W i) st1) as [st2 [e | f]]; simpl in *; subst st2.
  - done.
  - by repeat case_match.
Qed.

Lemma loop_cfg_unchanged ses n i st transactions :
  s_type ses <> TransactionType.HtlcLock ->
  cfg (loop E W ses n i st transactions).1 = cfg st.
Proof.
  intros Htype. revert i st transactions.
  induction n as [| n IH]; intros i st transactions; simpl; [done |].
  pose proof (iteration_cfg_unchanged ses i st Htype) as Hit.
  destruct (iteration E W ses i st) as [st1 [e | payload]]; [exact Hit |].
  by rewrite IH.
Qed.

(** X5: a call of [main] changes the configuration at most in
    [htlc.lock.expiration.value], and not at all unless the requested
    type is 8 (HTLC lock). *)
Theorem main_config_frame st data :
  same_but_lock_value (cfg st) (cfg (main E W st data).1)
  /\ (ToNumber E (default "" (split data !! 0%nat)) <> Some TransactionType.HtlcLock ->
      cfg (main E W st data).1 = cfg st).
Proof.
  split.
  - apply main_cfg_same.
  - intros Htype. unfold main.
    destruct (blockchain_height W) as [height |]; [| done].
    destruct (prepare E W st height data) as [e | ses] eqn:Hprepare; [done |].
    apply prepare_type in Hprepare as (Hnumber & _).
    assert (Hses : s_type ses <> TransactionType.HtlcLock) by congruence.
    pose proof (loop_cfg_unchanged ses (s_quantity ses) 0 st [] Hses) as Hloop.
    by destruct (loop E W ses (s_quantity ses) 0 st []) as [st' [e | pushed]].
Qed.

(** X6: the quantity token.  When it is missing or empty exactly one
    pass is made; when it is no number, or a number that is not
    positive, no pass is made: the state is left as it is and
    [postTransaction] is called with the empty list. *)
Theorem main_quantity st data height ses :
  blockchain_height W = Some height ->
  prepare E W st height data = inr ses ->
  (truthy (split data !! 1%nat) = false ->
   main E W st data =
     match iteration E W ses 0 st with
     | (st', inl e) => (st', Caught e)
     | (st', inr tx) => (st', Posted (postTransaction (cfg st') [tx]))
     end)
  /\ (forall q,
        split data !! 1%nat = Some q ->
        q <> "" ->
        ToNumber E q = None \/ (exists z, ToNumber E q = Some z /\ z <= 0) ->
        main E W st data = (st, Posted (postTransaction (cfg st) []))).
Proof.
  intros Hheight Hprepare.
  pose proof (prepare_type E W st height data ses Hprepare) as (_ & _ & Hq).
  unfold main. rewrite Hheight, Hprepare, Hq. split.
  - intros Hfalsy. unfold iterations. rewrite Hfalsy. simpl.
    by destruct (iteration E W ses 0 st) as [st' [e | tx]].
  - intros q Htoken Hnonempty Hnumber. unfold iterations. rewrite Htoken. simpl.
    apply String.eqb_neq in Hnonempty. rewrite Hnonempty. simpl.
    destruct Hnumber as [-> | (z & -> & Hz)]; [done |].
    by replace (Z.to_nat z) with 0%nat by lia.
Qed.

(** X7: on a cold run nothing is handed to the node, yet the nonces are
    consumed as on a real run.  After a call whose passes all ended
    normally the sender's cache entry is the first nonce issued plus
    the number of passes less one; after a call whose pass [k] threw it
    is the first nonce issued plus [k]. *)
Theorem cold_run_consumes_nonces st data :
  c_coldrun (cfg st) = true ->
  sent (main E W st data).2 = []
  /\ forall height ses,
      blockchain_height W = Some height ->
      prepare E W st height data = inr ses ->
      let first := next_nonce E ses (during W 0) st in
      (forall st' transactions,
          (0 < s_quantity ses)%nat ->
          loop E W ses (s_quantity ses) 0 st [] = (st', inr transactions) ->
          main E W st data = (st', Posted None)
          /\ nonces st' !! s_publicKey ses
             = Some (first + Z.of_nat (s_quantity ses - 1)))
      /\ (forall k st1 transactions st2 e,
            (k < s_quantity ses)%nat ->
            loop E W ses k 0 st [] = (st1, inr transactions) ->
            iteration E W ses k st1 = (st2, inl e) ->
            main E W st data = (st2, Caught e)
            /\ nonces st2 !! s_publicKey ses = Some (first + Z.of_nat k)).
Proof.
  intros Hcold. split.
  - unfold main.
    destruct (blockchain_height W) as [height |]; [| done].
    destruct (prepare E W st height data) as [e | ses]; [done |].
    pose proof (loop_cfg E W ses (s_quantity ses) 0 st []) as Hloop.
    destruct (loop E W ses (s_quantity ses) 0 st []) as [st' [e | pushed]]; [done |].
    simpl in *. apply same_coldrun in Hloop.
    unfold postTransaction. by rewrite Hloop, Hcold.
  - intros height ses Hheight Hprepare first. split.
    + intros st' transactions Hq Hloop.
      pose proof (loop_cfg E W ses (s_quantity ses) 0 st []) as Hcfg.
      destruct (loop_cache E W ses (s_quantity ses) 0 st [] Hq) as (k & _ & Hcache & Hall).
      rewrite Hloop in Hcfg, Hcache, Hall. simpl in Hcfg, Hcache, Hall.
      apply same_coldrun in Hcfg.
      split.
      * unfold main. rewrite Hheight, Hprepare, Hloop.
        unfold postTransaction. by rewrite Hcfg, Hcold.
      * rewrite Hcache, lookup_insert_eq, (Hall transactions eq_refl). done.
    + intros k st1 transactions st2 e Hk Hloop Hfail. split.
      * unfold main. rewrite Hheight, Hprepare.
        by rewrite (loop_throws E W ses k (s_quantity ses) 0 st [] st1 transactions st2 e).
      * pose proof (iteration_nonces E W ses k st1) as Hcache.
        rewrite Hfail in Hcache. simpl in Hcache.
        rewrite Hcache, lookup_insert_eq. f_equal.
        destruct k as [| k].
        -- simpl in Hloop. injection Hloop as <- _. subst first. lia.
        -- destruct (loop_cache E W ses (S k) 0 st [] ltac:(lia))
             as (j & _ & Hbefore & Hall).
           rewrite Hloop in Hbefore, Hall. simpl in Hbefore, Hall.
           rewrite (Hall transactions eq_refl) in Hbefore.
           rewrite (next_nonce_cached E ses _ st1 (first + Z.of_nat (S k - 1))).
           ++ lia.
           ++ by rewrite Hbefore, lookup_insert_eq.
Qed.

(** X8: whatever [main] hands to the node was accepted by the builder
    and, unless multi-signature mode is enabled, verified. *)
Theorem posted_transactions_pass_gate st data :
  Forall (fun tx =>
            build_accepts E tx = true
            /\ (verify E tx = true
                \/ ms_enabled (c_multiSignature (cfg st)) = true))
         (sent (main E W st data).2).
Proof.
  unfold main.
  destruct (blockchain_height W) as [height |]; [| constructor].
  destruct (prepare E W st height data) as [e | ses]; [constructor |].
  destruct (loop E W ses (s_quantity ses) 0 st []) as [st' [e | pushed]] eqn:Hloop;
    [constructor |].
  simpl. unfold postTransaction. destruct (c_coldrun (cfg st')); [constructor |].
  simpl. destruct (loop_passes E W ses _ _ _ _ _ _ Hloop) as (new & -> & _ & Hnew).
  simpl. apply Forall_lookup. intros k tx Hk.
  destruct (Hnew k tx Hk) as (st_k & st_k' & Hsame & Hpass).
  apply iteration_gate in Hpass as [Hbuild Hgate].
  by rewrite (same_multiSignature _ _ Hsame) in Hgate.
Qed.

End CallsFrame.

(** ** What each kind of transaction is built with *)

Section Kinds.
Context (E : Externals) (W : World).

(** A draft carries what the type dispatch produced, the session's
    builder, the nonce that was issued, and the configured fee if it is
    truthy. *)
Lemma assemble_inv ses i st st' tx :
  assemble E W ses i st = (st', inr tx) ->
  exists f,
    populate E ses (during W i)
      {| nonces := <[s_publicKey ses := next_nonce E ses (during W i) st]> (nonces st);
         cfg := cfg st |} = (st', inr f)
    /\ t_recipientId tx = f_recipientId f
    /\ t_amount tx = f_amount f
    /\ t_expiration tx = f_expiration f
    /\ t_asset tx = f_asset f
    /\ t_builder tx = s_builder ses
    /\ t_fee tx = (if truthy (c_fee (cfg st)) then c_fee (cfg st) else None).
Proof.
  unfold assemble.
  destruct (populate E ses (during W i) _) as [st2 [e | f]]; [done |].
  intros Hasm. exists f.
  assert (Hst : st2 = st') by (revert Hasm; repeat case_match; congruence).
  subst st2. split; [done |].
  revert Hasm. cbn [cfg].
  generalize (if truthy (c_fee (cfg st)) then c_fee (cfg st) else None) as fee.
  intros fee. repeat case_match; intros [= <-]; by repeat split.
Qed.

(** A transfer is built whether or not the second protocol version is
    active, and leaves the configuration alone. *)
Lemma transfer_fields ses i st st' tx :
  s_type ses = TransactionType.Transfer ->
  iteration E W ses i st = (st', inr tx) ->
  t_recipientId tx = Some (s_recipientId ses)
  /\ t_amount tx = Some (c_amount (cfg st))
  /\ t_expiration tx = Some (default 0 (c_expiration (cfg st)))
  /\ t_asset tx = NoAsset
  /\ cfg st' = cfg st.
Proof.
  intros Htype Hit. apply iteration_inr, assemble_inv in Hit.
  destruct Hit as (f & Hpop & -> & -> & -> & -> & _).
  revert Hpop. unfold populate. rewrite Htype. simpl.
  intros [= <- <-]. by repeat split.
Qed.

(** X9: every transfer [main] posts goes to the configured recipient if
    there is one, else to the address of a fixture wallet; it carries
    the configured amount, the configured expiration height or 0, and
    no asset.  This holds whether or not the second protocol version is
    active. *)
Theorem posted_transfers st data :
  ToNumber E (default "" (split data !! 0%nat)) = Some TransactionType.Transfer ->
  Forall (fun tx =>
            (if truthy (c_recipientId (cfg st))
             then t_recipientId tx = c_recipientId (cfg st)
             else exists w, w ∈ testWallets
                            /\ t_recipientId tx
                               = Some (Address_fromPassphrase E (passphrase w)))
            /\ t_amount tx = Some (c_amount (cfg st))
            /\ t_expiration tx = Some (default 0 (c_expiration (cfg st)))
            /\ t_asset tx = NoAsset)
         (sent (main E W st data).2).
Proof.
  intros Htype. unfold main.
  destruct (blockchain_height W) as [height |]; [| constructor].
  destruct (prepare E W st height data) as [e | ses] eqn:Hprepare; [constructor |].
  pose proof (prepare_type E W st height data ses Hprepare) as (Hnumber & _).
  pose proof (prepare_recipient E W st height data ses Hprepare) as Hrecipient.
  assert (Hses : s_type ses = TransactionType.Transfer) by congruence.
  destruct (loop E W ses (s_quantity ses) 0 st []) as [st' [e | pushed]] eqn:Hloop;
    [constructor |].
  simpl. unfold postTransaction. destruct (c_coldrun (cfg st')); [constructor |].
  simpl. destruct (loop_passes E W ses _ _ _ _ _ _ Hloop) as (new & -> & _ & Hnew).
  simpl. apply Forall_lookup. intros k tx Hk.
  destruct (Hnew k tx Hk) as (st_k & st_k' & Hsame & Hpass).
  destruct (transfer_fields ses _ _ _ _ Hses Hpass) as (Hr & Ha & He & Hasset & _).
  rewrite Hr, Ha, He, (same_amount _ _ Hsame), (same_expiration _ _ Hsame).
  split; [| by repeat split].
  destruct (truthy (c_recipientId (cfg st))); [done |].
  destruct Hrecipient as (w & Hw & ->). by exists w.
Qed.

(** X10: a vote carries exactly one entry: "+" and the configured vote
    if there is one; else "-" and the configured unvote if there is one;
    else "-" and the vote the sender's wallet has if it has one; else
    "+" and the sender's own public key. *)
Theorem vote_draft ses i st st' tx :
  s_type ses = TransactionType.Vote ->
  iteration E W ses i st = (st', inr tx) ->
  let c := cfg st in
  exists entry,
    t_asset tx = VotesAsset [entry]
    /\ entry =
       match (if truthy (c_vote c) then c_vote c else None),
             (if truthy (c_unvote c) then c_unvote c else None),
             (if truthy (w_vote (s_senderWallet ses))
              then w_vote (s_senderWallet ses) else None) with
       | Some target, _, _ => "+" +:+ target
       | None, Some target, _ => "-" +:+ target
       | None, None, Some current => "-" +:+ current
       | None, None, None => "+" +:+ s_publicKey ses
       end.
Proof.
  intros Htype Hit c. subst c. apply iteration_inr, assemble_inv in Hit.
  destruct Hit as (f & Hpop & _ & _ & _ & -> & _).
  revert Hpop. unfold populate. rewrite Htype. simpl.
  intros [= <- <-]. simpl. eexists. split; [reflexivity |].
  unfold truthy.
  destruct (c_vote (cfg st)) as [v |]; simpl;
    [destruct (String.eqb v ""); simpl; [| done] |];
    (destruct (c_unvote (cfg st)) as [u |]; simpl;
      [destruct (String.eqb u ""); simpl; [| done] |]);
    (destruct (w_vote (s_senderWallet ses)) as [w |]; simpl;
      [destruct (String.eqb w ""); simpl |]); done.
Qed.

(** X11: a delegate registration uses the configured name if there is
    one, else "delegate." followed by the first ten characters of the
    sender's public key (all of it if it is shorter). *)
Theorem delegate_registration_draft ses i st st' tx :
  s_type ses = TransactionType.DelegateRegistration ->
  iteration E W ses i st = (st', inr tx) ->
  exists username,
    t_asset tx = UsernameAsset username
    /\ (truthy (c_delegateName (cfg st)) = true ->
        c_delegateName (cfg st) = Some username)
    /\ (truthy (c_delegateName (cfg st)) = false ->
        exists slice,
          username = "delegate." +:+ slice
          /\ String.prefix slice (s_publicKey ses) = true
          /\ String.length slice
             = Nat.min 10 (String.length (s_publicKey ses))).
Proof.
  intros Htype Hit. apply iteration_inr, assemble_inv in Hit.
  destruct Hit as (f & Hpop & _ & _ & _ & -> & _).
  revert Hpop. unfold populate. rewrite Htype. simpl.
  intros [= <- <-]. simpl. eexists. split; [reflexivity |].
  assert (Hslice : forall n s,
    String.prefix (String.substring 0 n s) s = true
    /\ String.length (String.substring 0 n s) = Nat.min n (String.length s)).
  { induction n as [| n IH]; intros [| a s]; simpl; try done.
    destruct (IH s) as [Hp Hl]. rewrite Hp, Hl.
    by destruct (Ascii.ascii_dec a a). }
  unfold js_or_default, truthy.
  destruct (c_delegateName (cfg st)) as [name |]; simpl.
  - destruct (String.eqb name ""); simpl.
    + split; [done |]. intros _. eexists. split; [reflexivity |]. apply Hslice.
    + split; [done | done].
  - split; [done |]. intros _. eexists. split; [reflexivity |]. apply Hslice.
Qed.

End Kinds.

(** ** Who signs *)

Lemma imap_cosigners (participants : list string) :
  cs_passphrase
    <$> imap (fun i p => {| cs_index := Z.of_nat i; cs_passphrase := p |}) participants
  = participants
  /\ cs_index
       <$> imap (fun i p => {| cs_index := Z.of_nat i; cs_passphrase := p |}) participants
     = Z.of_nat <$> seq 0 (length participants).
Proof.
  split; apply list_eq; intros i;
    rewrite ?list_lookup_fmap, list_lookup_imap;
    destruct (participants !! i) as [p |] eqn:Hp; simpl; try done.
  - apply lookup_lt_Some in Hp. by rewrite lookup_seq_lt.
  - apply lookup_ge_None in Hp. by rewrite lookup_seq_ge.
Qed.

Section Signers.
Context (E : Externals) (W : World).

(** The signing steps, read off the configuration the pass started with. *)
Lemma assemble_signing ses i st st' tx :
  assemble E W ses i st = (st', inr tx) ->
  let c := cfg st in
  let enabled := ms_enabled (c_multiSignature c) in
  let registration := s_type ses =? 4 in
  t_senderPublicKey tx
    = (if registration then w_publicKey (s_senderWallet ses)
       else if enabled then Some (msi_publicKey (multiSignatureAddress E c))
            else Some (s_publicKey ses))
  /\ t_multiSignatures tx
     = (if registration
        then imap (fun i p => {| cs_index := Z.of_nat i; cs_passphrase := p |})
                  (asset_participants (ms_asset (c_multiSignature c)))
        else if enabled then ms_passphrases (c_multiSignature c) else [])
  /\ t_signature tx
     = (if negb enabled || registration then Some (sign c (s_senderSecret ses)) else None)
  /\ t_secondSignature tx
     = (if negb enabled || registration then
          if truthy (c_secondPassphrase c)
          then Some (secondSign c (default "" (c_secondPassphrase c)))
          else if truthy (w_secondPublicKey (s_senderWallet ses))
               then Some (secondSign c "second passphrase")
               else None
        else None).
Proof.
  unfold assemble.
  set (st1 := {| nonces := _; cfg := cfg st |}).
  pose proof (populate_cfg E ses (during W i) st1) as Hcfg.
  destruct (populate E ses (during W i) st1) as [st2 [e | f]]; [done |].
  simpl in Hcfg.
  pose proof (same_multiSignature _ _ Hcfg) as Hms.
  pose proof (same_ecdsa _ _ Hcfg) as Hecdsa.
  pose proof (same_secondPassphrase _ _ Hcfg) as Hsecond.
  unfold sign, secondSign, multiSignatureAddress.
  rewrite Hms, Hecdsa, Hsecond.
  destruct (ms_enabled (c_multiSignature (cfg st))), (s_type ses =? 4); simpl;
    intros [= <- <-]; by repeat split.
Qed.

(** X12: a multi-signature registration is built only when the second
    protocol version is active.  It registers the public keys of the
    configured participants, in order, with the configured threshold;
    it is co-signed by every participant, the i-th at index i, then
    signed by the sender, whose wallet key is the sender key, whether
    or not multi-signature mode is enabled. *)
Theorem multisignature_registration_draft ses i st st' tx :
  s_type ses = TransactionType.MultiSignature ->
  iteration E W ses i st = (st', inr tx) ->
  let a := ms_asset (c_multiSignature (cfg st)) in
  s_aip11 ses = true
  /\ t_asset tx
     = MultiSignatureAsset (PublicKey_fromPassphrase E <$> asset_participants a)
                           (asset_min a)
  /\ t_senderPublicKey tx = w_publicKey (s_senderWallet ses)
  /\ cs_passphrase <$> t_multiSignatures tx = asset_participants a
  /\ cs_index <$> t_multiSignatures tx
     = Z.of_nat <$> seq 0 (length (asset_participants a))
  /\ t_signature tx = Some (sign (cfg st) (s_senderSecret ses)).
Proof.
  intros Htype Hit a. subst a. apply iteration_inr in Hit.
  destruct (assemble_signing ses i st st' tx Hit) as (Hsender & Hmulti & Hsig & _).
  rewrite Htype in Hsender, Hmulti, Hsig. simpl in Hsender, Hmulti, Hsig.
  rewrite orb_true_r in Hsig.
  destruct (imap_cosigners
              (asset_participants (ms_asset (c_multiSignature (cfg st)))))
    as [Hpass Hindex].
  apply assemble_inv in Hit as (f & Hpop & _ & _ & _ & Hasset & _).
  revert Hpop. unfold populate. rewrite Htype. simpl.
  destruct (s_aip11 ses); simpl; [| done].
  intros [= <- <-]. simpl in Hasset.
  split; [done |]. split; [exact Hasset |]. split; [exact Hsender |].
  rewrite Hmulti. by repeat split.
Qed.

(** X13: without multi-signature mode, a transaction of any kind but the
    multi-signature registration has the sender's own key as sender
    key and no co-signature; it is signed with the sender secret, ECDSA
    if [config.ecdsa] is set, and second-signed with the configured
    second passphrase if there is one, else with "second passphrase" if
    the sender's wallet has a second public key, else not at all. *)
Theorem single_signer_draft ses i st st' tx :
  ms_enabled (c_multiSignature (cfg st)) = false ->
  s_type ses <> TransactionType.MultiSignature ->
  iteration E W ses i st = (st', inr tx) ->
  let c := cfg st in
  let signed p := if c_ecdsa c then EcdsaSigned p else BuilderSigned p in
  t_senderPublicKey tx = Some (s_publicKey ses)
  /\ t_multiSignatures tx = []
  /\ t_signature tx = Some (signed (s_senderSecret ses))
  /\ t_secondSignature tx
     = match c_secondPassphrase c with
       | Some second =>
           if negb (String.eqb second "") then Some (signed second)
           else if truthy (w_secondPublicKey (s_senderWallet ses))
                then Some (signed "second passphrase") else None
       | None =>
           if truthy (w_secondPublicKey (s_senderWallet ses))
           then Some (signed "second passphrase") else None
       end.
Proof.
  intros Hoff Htype Hit c signed. subst c signed. apply iteration_inr in Hit.
  destruct (assemble_signing ses i st st' tx Hit) as (Hsender & Hmulti & Hsig & Hsecond).
  apply Z.eqb_neq in Htype. unfold TransactionType.MultiSignature in Htype.
  rewrite Hoff, Htype in Hsender, Hmulti, Hsig, Hsecond.
  simpl in Hsender, Hmulti, Hsig, Hsecond.
  unfold sign in Hsig. unfold secondSign, truthy in Hsecond.
  split; [exact Hsender |]. split; [exact Hmulti |]. split.
  - rewrite Hsig. by destruct (c_ecdsa (cfg st)).
  - rewrite Hsecond.
    destruct (c_secondPassphrase (cfg st)) as [second |]; simpl;
      [destruct (String.eqb second ""); simpl |];
      destruct (c_ecdsa (cfg st)); simpl; try done;
      by destruct (w_secondPublicKey (s_senderWallet ses)) as [k |]; simpl;
         [destruct (String.eqb k "") |].
Qed.

End Signers.

(** ** HTLC claims, refunds and locks *)

Section Htlc.
Context (E : Externals) (W : World).

(** A pass whose dispatch throws ends with that error, the nonce cached. *)
Lemma iteration_populate_throws ses i st st2 e :
  populate E ses (during W i)
    {| nonces := <[s_publicKey ses := next_nonce E ses (during W i) st]> (nonces st);
       cfg := cfg st |} = (st2, inl e) ->
  iteration E W ses i st = (st2, inl e).
Proof. intros Hpop. unfold iteration, assemble. by rewrite Hpop. Qed.

(** X14: an HTLC claim names the configured lock transaction if there is
    one, without asking the network; else the first lock transaction
    the network reports for the sender.  If there is neither, the pass
    ends with a TypeError, after its nonce was issued and cached.  The
    unlock secret is the configured one. *)
Theorem htlc_claim_draft ses i st :
  s_type ses = TransactionType.HtlcClaim ->
  s_aip11 ses = true ->
  let claim := htlc_claim (c_htlc (cfg st)) in
  let found := lockTransactions (during W i) (w_publicKey (s_senderWallet ses)) in
  let issued :=
    {| nonces := <[s_publicKey ses := next_nonce E ses (during W i) st]> (nonces st);
       cfg := cfg st |} in
  match (if truthy (claim_lockTransactionId claim)
         then claim_lockTransactionId claim else head found) with
  | Some id =>
      exists tx,
        assemble E W ses i st = (issued, inr tx)
        /\ t_asset tx = HtlcClaimAsset id (claim_unlockSecret claim)
  | None => iteration E W ses i st = (issued, inl TypeError)
  end.
Proof.
  intros Htype Haip claim found issued.
  assert (Hpop : populate E ses (during W i) issued
    = (issued,
       match (if truthy (claim_lockTransactionId claim)
              then claim_lockTransactionId claim else head found) with
       | Some id => inr (only_asset (HtlcClaimAsset id (claim_unlockSecret claim)))
       | None => inl TypeError
       end)).
  { unfold populate. rewrite Htype, Haip. simpl. fold claim. fold found.
    unfold truthy. destruct (claim_lockTransactionId claim) as [id |]; simpl.
    - destruct (String.eqb id ""); simpl; [| done]. by destruct found.
    - by destruct found. }
  destruct (if truthy (claim_lockTransactionId claim)
            then claim_lockTransactionId claim else head found) as [id |].
  - apply assemble_populated in Hpop as (tx & Hasm & Hasset). by exists tx.
  - by apply iteration_populate_throws.
Qed.

(** X15: an HTLC refund resolves its lock transaction the same way: the
    configured one, else the first the network reports, else a
    TypeError with the nonce consumed. *)
Theorem htlc_refund_draft ses i st :
  s_type ses = TransactionType.HtlcRefund ->
  s_aip11 ses = true ->
  let refund := htlc_refund (c_htlc (cfg st)) in
  let found := lockTransactions (during W i) (w_publicKey (s_senderWallet ses)) in
  let issued :=
    {| nonces := <[s_publicKey ses := next_nonce E ses (during W i) st]> (nonces st);
       cfg := cfg st |} in
  match (if truthy (refund_lockTransactionId refund)
         then refund_lockTransactionId refund else head found) with
  | Some id =>
      exists tx,
        assemble E W ses i st = (issued, inr tx)
        /\ t_asset tx = HtlcRefundAsset id
  | None => iteration E W ses i st = (issued, inl TypeError)
  end.
Proof.
  intros Htype Haip refund found issued.
  assert (Hpop : populate E ses (during W i) issued
    = (issued,
       match (if truthy (refund_lockTransactionId refund)
              then refund_lockTransactionId refund else head found) with
       | Some id => inr (only_asset (HtlcRefundAsset id))
       | None => inl TypeError
       end)).
  { unfold populate. rewrite Htype, Haip. simpl. fold refund. fold found.
    unfold truthy. destruct (refund_lockTransactionId refund) as [id |]; simpl.
    - destruct (String.eqb id ""); simpl; [| done]. by destruct found.
    - by destruct found. }
  destruct (if truthy (refund_lockTransactionId refund)
            then refund_lockTransactionId refund else head found) as [id |].
  - apply assemble_populated in Hpop as (tx & Hasm & Hasset). by exists tx.
  - by apply iteration_populate_throws.
Qed.

(** X16: an HTLC lock whose expiration is an epoch timestamp and whose
    configured value is not negative never expires before the network
    time its pass read, and never earlier than configured; when the
    network time could not be read (0) it is sent with the configured
    value, whatever that is. *)
Theorem lock_expiration_not_past ses i st :
  s_type ses = TransactionType.HtlcLock ->
  s_aip11 ses = true ->
  exp_type (lock_expiration (htlc_lock (c_htlc (cfg st))))
    = HtlcLockExpirationType.EpochTimestamp ->
  let v := exp_value (lock_expiration (htlc_lock (c_htlc (cfg st)))) in
  let t := networktime (during W i) in
  exists st' tx sent_value,
    assemble E W ses i st = (st', inr tx)
    /\ lock_value (t_asset tx) = Some sent_value
    /\ (0 <= v -> t <= sent_value /\ v <= sent_value)
    /\ (t = 0 -> sent_value = v).
Proof.
  intros Htype Haip Hepoch v t.
  set (st0 := {| nonces := <[s_publicKey ses := next_nonce E ses (during W i) st]> (nonces st);
                 cfg := cfg st |}).
  pose proof (populate_lock E ses (during W i) st0 Htype Haip Hepoch) as Hpop.
  simpl in Hpop. fold v t in Hpop.
  destruct (assemble_populated E W ses i st _ _ Hpop) as (tx & Hasm & Hasset).
  eexists _, tx, (if v <? t then v + t else v).
  split; [exact Hasm |]. split.
  - rewrite Hasset. simpl. by destruct (v <? t).
  - destruct (Z.ltb_spec v t); split; lia.
Qed.

(** X23: the expiration is added to again when time has moved on.  If a
    first lock turned the configured offset [v] into [v + t1], and a
    later lock reads a network time [t2] beyond that stored value, the
    later lock is sent with [v + t1 + t2], which is stored in turn. *)
Theorem lock_expiration_readded ses i st ses' j st1' :
  s_type ses = TransactionType.HtlcLock ->
  s_aip11 ses = true ->
  s_type ses' = TransactionType.HtlcLock ->
  s_aip11 ses' = true ->
  exp_type (lock_expiration (htlc_lock (c_htlc (cfg st))))
    = HtlcLockExpirationType.EpochTimestamp ->
  let v := exp_value (lock_expiration (htlc_lock (c_htlc (cfg st)))) in
  let t1 := networktime (during W i) in
  let t2 := networktime (during W j) in
  v < t1 ->
  v + t1 < t2 ->
  cfg st1' = cfg (assemble E W ses i st).1 ->
  exists st2 tx2,
    assemble E W ses' j st1' = (st2, inr tx2)
    /\ lock_value (t_asset tx2) = Some (v + t1 + t2)
    /\ exp_value (lock_expiration (htlc_lock (c_htlc (cfg st2)))) = v + t1 + t2.
Proof.
  intros Htype Haip Htype' Haip' Hepoch v t1 t2 Hfirst Hlater Hcfg.
  set (st0 := {| nonces := <[s_publicKey ses := next_nonce E ses (during W i) st]> (nonces st);
                 cfg := cfg st |}).
  pose proof (populate_lock E ses (during W i) st0 Htype Haip Hepoch) as Hpop.
  simpl in Hpop. fold v t1 in Hpop.
  destruct (Z.ltb_spec v t1) as [_ | Hge]; [| lia].
  destruct (assemble_populated E W ses i st _ _ Hpop) as (tx1 & Hasm & _).
  rewrite Hasm in Hcfg. simpl in Hcfg.
  set (st0' := {| nonces := <[s_publicKey ses' := next_nonce E ses' (during W j) st1']>
                              (nonces st1');
                  cfg := cfg st1' |}).
  assert (Hepoch' : exp_type (lock_expiration (htlc_lock (c_htlc (cfg st0'))))
                    = HtlcLockExpirationType.EpochTimestamp)
    by (simpl; by rewrite Hcfg).
  pose proof (populate_lock E ses' (during W j) st0' Htype' Haip' Hepoch') as Hpop'.
  simpl in Hpop'. rewrite Hcfg in Hpop'. simpl in Hpop'. fold v t1 t2 in Hpop'.
  destruct (Z.ltb_spec (v + t1) t2) as [_ | Hge]; [| lia].
  destruct (assemble_populated E W ses' j st1' _ _ Hpop') as (tx2 & Hasm' & Hasset').
  eexists _, tx2. split; [exact Hasm' |]. split; [| done].
  by rewrite Hasset'.
Qed.

End Htlc.

(** ** The dispatch table and the protocol version *)

Section Dispatch.
Context (E : Externals) (W : World).

Lemma populate_version2 ses R st :
  s_aip11 ses = false ->
  4 <= s_type ses ->
  populate E ses R st = (st, inl Version2NotSupported).
Proof.
  intros Haip Htype. unfold populate. rewrite Haip.
  unfold TransactionType.Transfer, TransactionType.SecondSignature,
    TransactionType.DelegateRegistration, TransactionType.Vote.
  destruct (Z.eqb_spec (s_type ses) 0); [lia |].
  destruct (Z.eqb_spec (s_type ses) 1); [lia |].
  destruct (Z.eqb_spec (s_type ses) 2); [lia |].
  destruct (Z.eqb_spec (s_type ses) 3); [lia |].
  by rewrite !andb_false_r.
Qed.

(** X17: while the second protocol version is not active, a request for
    any type from 4 on ends in the catch block with "Version 2 not
    supported." during its first pass: nothing is posted, the
    configuration is untouched and exactly one nonce is consumed,
    however many transactions were requested. *)
Theorem version2_not_supported st data height ses :
  blockchain_height W = Some height ->
  prepare E W st height data = inr ses ->
  s_aip11 ses = false ->
  4 <= s_type ses ->
  (0 < s_quantity ses)%nat ->
  main E W st data
  = ({| nonces := <[s_publicKey ses := next_nonce E ses (during W 0) st]> (nonces st);
        cfg := cfg st |},
     Caught Version2NotSupported).
Proof.
  intros Hheight Hprepare Haip Htype Hq. unfold main. rewrite Hheight, Hprepare.
  destruct (s_quantity ses) as [| q]; [lia |]. simpl.
  by rewrite (iteration_populate_throws E W ses 0 st _ _
                (populate_version2 ses (during W 0) _ Haip Htype)).
Qed.

(** X18: the dispatch table has a builder exactly for the types 0 to 11,
    and the if/else chain handles each of them: for a type of the table
    the chain never ends in "Version 2 not supported." when the second
    protocol version is active, nor, for the types 0 to 3, when it is
    not. *)
Theorem dispatch_table_covered (type : Z) :
  (is_Some (builders !! type) <-> 0 <= type <= 11)
  /\ forall ses R st,
      s_type ses = type ->
      is_Some (builders !! type) ->
      s_aip11 ses = true \/ type <= 3 ->
      (populate E ses R st).2 <> inl Version2NotSupported.
Proof.
  assert (Hdom : is_Some (builders !! type) <-> 0 <= type <= 11).
  { split.
    - intros [b Hb]. apply elem_of_list_to_map_2 in Hb.
      repeat (apply elem_of_cons in Hb as [[= -> _] | Hb]; [lia |]).
      by apply elem_of_nil in Hb.
    - intros Hrange.
      assert (Hcases : type = 0 \/ type = 1 \/ type = 2 \/ type = 3 \/ type = 4
                       \/ type = 5 \/ type = 6 \/ type = 7 \/ type = 8
                       \/ type = 9 \/ type = 10 \/ type = 11) by lia.
      repeat (destruct Hcases as [-> | Hcases]; [by eexists |]).
      rewrite Hcases. by eexists. }
  split; [exact Hdom |].
  intros ses R st Htype Hsome Hactive. apply Hdom in Hsome.
  assert (Hcases : type = 0 \/ type = 1 \/ type = 2 \/ type = 3 \/ type = 4
                   \/ type = 5 \/ type = 6 \/ type = 7 \/ type = 8
                   \/ type = 9 \/ type = 10 \/ type = 11) by lia.
  unfold populate. rewrite Htype.
  destruct Hactive as [-> | Hlow].
  - repeat (destruct Hcases as [-> | Hcases];
            [simpl; repeat case_match; simpl; congruence |]).
    rewrite Hcases. simpl. repeat case_match; simpl; congruence.
  - assert (Hlower : type = 0 \/ type = 1 \/ type = 2 \/ type = 3) by lia.
    repeat (destruct Hlower as [-> | Hlower]; [simpl; congruence |]).
    rewrite Hlower. simpl. congruence.
Qed.

(** X19: a multi-payment pass that reaches [build()] was made with the
    second protocol version active and left the configuration alone.
    With a configured, non-empty payment list its transaction carries
    exactly that list, in order; with an empty or absent list it
    carries as many payments as were drawn, each of amount "1", the
    i-th to the fixture wallet at position i modulo the size of the
    pool. *)
Theorem multipayment_draft ses i st st' tx :
  s_type ses = TransactionType.MultiPayment ->
  assemble E W ses i st = (st', inr tx) ->
  exists payments,
    s_aip11 ses = true
    /\ t_asset tx = PaymentsAsset payments
    /\ cfg st' = cfg st
    /\ match c_multiPayments (cfg st) with
       | Some (p :: configured) => payments = p :: configured
       | _ =>
           length payments = payment_count (random_count (during W i))
           /\ forall k pay,
               payments !! k = Some pay ->
               pay_amount pay = "1"
               /\ exists w,
                   testWallets !! (k mod length testWallets)%nat = Some w
                   /\ pay_recipientId pay = address w
       end.
Proof.
  intros Htype Hasm.
  assert (Hsynth : forall count,
    length (synthesize_payments count) = count
    /\ forall k pay,
        synthesize_payments count !! k = Some pay ->
        pay_amount pay = "1"
        /\ exists w,
            testWallets !! (k mod length testWallets)%nat = Some w
            /\ pay_recipientId pay = address w).
  { intros count. split; [apply synthesize_payments_length |].
    intros k pay Hk.
    assert (Hlt : (k < count)%nat).
    { apply lookup_lt_Some in Hk. by rewrite synthesize_payments_length in Hk. }
    destruct (synthesize_payments_lookup count k Hlt) as (w & Hw & Hpay).
    rewrite Hpay in Hk. injection Hk as <-. split; [done |]. by exists w. }
  apply assemble_inv in Hasm as (f & Hpop & _ & _ & _ & Hasset & _).
  revert Hpop. unfold populate. rewrite Htype. simpl.
  destruct (s_aip11 ses); simpl; [| done].
  intros [= <- <-]. simpl in Hasset.
  eexists. split; [done |]. split; [exact Hasset |]. split; [done |].
  destruct (c_multiPayments (cfg st)) as [[| p configured] |];
    [apply Hsynth | done | apply Hsynth].
Qed.

End Dispatch.

(** ** What is posted, and the prompt loop *)

(** X20: every transaction [main] hands to the node was created by the
    builder the dispatch table holds for the requested type, and
    carries the configured fee if that is truthy, else no fee of its
    own. *)
Theorem posted_transactions_builder (E : Externals) (W : World) st data :
  Forall (fun tx =>
            (exists type,
                ToNumber E (default "" (split data !! 0%nat)) = Some type
                /\ builders !! type = Some (t_builder tx))
            /\ t_fee tx = (if truthy (c_fee (cfg st)) then c_fee (cfg st) else None))
         (sent (main E W st data).2).
Proof.
  unfold main.
  destruct (blockchain_height W) as [height |]; [| constructor].
  destruct (prepare E W st height data) as [e | ses] eqn:Hprepare; [constructor |].
  apply prepare_type in Hprepare as (Hnumber & Hbuilder & _).
  destruct (loop E W ses (s_quantity ses) 0 st []) as [st' [e | pushed]] eqn:Hloop;
    [constructor |].
  simpl. unfold postTransaction. destruct (c_coldrun (cfg st')); [constructor |].
  simpl. destruct (loop_passes E W ses _ _ _ _ _ _ Hloop) as (new & -> & _ & Hnew).
  simpl. apply Forall_lookup. intros k tx Hk.
  destruct (Hnew k tx Hk) as (st_k & st_k' & Hsame & Hpass).
  apply iteration_inr, assemble_inv in Hpass
    as (f & _ & _ & _ & _ & _ & Hbuilt & Hfee).
  split.
  - exists (s_type ses). by rewrite Hbuilt.
  - by rewrite Hfee, (same_fee _ _ Hsame).
Qed.

(** X21: over a whole session at the prompt, no entry of the nonce cache
    is ever removed or lowered, and the configuration changes at most
    in [htlc.lock.expiration.value]. *)
Theorem run_keeps_cache (E : Externals) inputs st :
  (forall pk n,
      nonces st !! pk = Some n ->
      exists m, n <= m /\ nonces (run E inputs st).1 !! pk = Some m)
  /\ same_but_lock_value (cfg st) (cfg (run E inputs st).1).
Proof.
  revert st. induction inputs as [| [W data] inputs IH]; intros st; simpl.
  - split; [| apply same_but_lock_value_refl].
    intros pk n Hn. exists n. split; [lia | done].
  - pose proof (main_cache_monotone E W st data) as Hmono.
    pose proof (main_cfg_same E W st data) as Hframe.
    destruct (main E W st data) as [st1 o] eqn:Hmain. simpl in Hmono, Hframe.
    assert (Hrest :
      (forall pk n, nonces st !! pk = Some n ->
         exists m, n <= m
           /\ nonces (let '(st2, os) := run E inputs st1 in (st2, o :: os)).1 !! pk
              = Some m)
      /\ same_but_lock_value (cfg st)
           (cfg (let '(st2, os) := run E inputs st1 in (st2, o :: os)).1)).
    { destruct (IH st1) as [IHmono IHframe].
      destruct (run E inputs st1) as [st2 os]. simpl in *. split.
      - intros pk n Hn. destruct (Hmono pk n Hn) as (m1 & Hle1 & Hm1).
        destruct (IHmono pk m1 Hm1) as (m2 & Hle2 & Hm2).
        exists m2. split; [lia | done].
      - by eapply same_but_lock_value_trans. }
    destruct o; try exact Hrest.
    simpl. split; [exact Hmono | exact Hframe].
Qed.

(** X22: the session ends with the first call in which
    [configureCrypto] fails: that call leaves the state as it is, it is
    the last one answered, and the lines typed after it are not read;
    a session without such a call answers every line. *)
Theorem run_ends_at_exit (E : Externals) inputs st :
  let outcomes := (run E inputs st).2 in
  (length outcomes <= length inputs)%nat
  /\ (forall k, outcomes !! k = Some Exited -> S k = length outcomes)
  /\ (Exited ∉ outcomes -> length outcomes = length inputs)
  /\ (forall W data rest,
        inputs = (W, data) :: rest ->
        blockchain_height W = None ->
        run E inputs st = (st, [Exited])).
Proof.
  revert st. induction inputs as [| [W data] inputs IH]; intros st; simpl.
  - repeat split; try done.
  - split; [| split; [| split]].
    4: { intros W' data' rest [= -> -> ->] Hnone. unfold main. by rewrite Hnone. }
    all: destruct (main E W st data) as [st1 o];
      specialize (IH st1); simpl in IH; destruct IH as (IHlen & IHlast & IHall & _);
      destruct (run E inputs st1) as [st2 os]; simpl in *;
      destruct o; simpl.
    all: try lia.
    + intros [| k] Hk; simpl in Hk; [done | by rewrite lookup_nil in Hk].
    + intros [| k] Hk; simpl in Hk; [done |]. by rewrite (IHlast k Hk).
    + intros [| k] Hk; simpl in Hk; [done |]. by rewrite (IHlast k Hk).
    + intros Hnot. exfalso. apply Hnot. apply list_elem_of_here.
    + intros Hnot. rewrite IHall; [done |]. by apply not_elem_of_cons in Hnot as [_ ?].
    + intros Hnot. rewrite IHall; [done |]. by apply not_elem_of_cons in Hnot as [_ ?].
Qed.

(** ** The further properties at concrete requests *)

(** X2, at the request "0 2". *)
Lemma prepare_identities_witness :
  let E := Demo.externals Demo.accepts in
  let ses := Demo.session 0 BuilderFactory.transfer ["0"; "2"] 2 true in
  builders !! s_type ses = Some (s_builder ses)
  /\ s_publicKey ses = Keys_fromPassphrase E (s_senderSecret ses)
  /\ exists w, w ∈ testWallets /\ s_senderSecret ses = passphrase w.
Proof.
  intros E ses.
  destruct (prepare_identities E (Demo.world Demo.cold) initial_state 4000000 "0 2" ses)
    as ((_ & _ & Hbuilder & _) & Hsecret & Hkey & _).
  - vm_compute. reflexivity.
  - split; [exact Hbuilder |]. split; [exact Hkey | exact Hsecret].
Defined.

(** X3, at the request "0 2". *)
Lemma main_posts_consecutive_nonces_witness :
  let E := Demo.externals Demo.accepts in
  let W := Demo.world Demo.cold in
  length (sent (main E W initial_state "0 2").2) = 2%nat
  /\ t_nonce <$> sent (main E W initial_state "0 2").2 = [1; 2].
Proof.
  intros E W.
  apply (main_posts_consecutive_nonces E W initial_state "0 2" 4000000
           (Demo.session 0 BuilderFactory.transfer ["0"; "2"] 2 true)).
  - reflexivity.
  - vm_compute. reflexivity.
  - vm_compute. reflexivity.
Defined.

(** X4, at a cache that holds the nonce 7 of another sender. *)
Lemma main_nonce_cache_witness :
  let E := Demo.externals Demo.accepts in
  let W := Demo.world Demo.cold in
  let st := {| nonces := {[ "pub:other" := 7 ]}; cfg := initial_config |} in
  (exists m, 7 <= m /\ nonces (main E W st "0 2").1 !! "pub:other" = Some m)
  /\ nonces (main E W st "0 2").1 !! "pub:other" = nonces st !! "pub:other".
Proof.
  intros E W st.
  destruct (main_nonce_cache E W st "0 2") as [Hmono Hframe]. split.
  - apply Hmono. vm_compute. reflexivity.
  - apply (Hframe 4000000 (Demo.session 0 BuilderFactory.transfer ["0"; "2"] 2 true)).
    + reflexivity.
    + vm_compute. reflexivity.
    + vm_compute. discriminate.
Defined.

(** X5, at a transfer. *)
Lemma main_config_frame_witness :
  cfg (main (Demo.externals Demo.accepts) (Demo.world Demo.cold) initial_state "0 2").1
  = initial_config.
Proof.
  apply (main_config_frame (Demo.externals Demo.accepts) (Demo.world Demo.cold)
           initial_state "0 2").
  vm_compute. discriminate.
Defined.

(** X6, at the requests "0" and "0 0". *)
Lemma main_quantity_witness :
  let E := Demo.externals Demo.accepts in
  let W := Demo.world Demo.cold in
  main E W initial_state "0"
  = match iteration E W (Demo.session 0 BuilderFactory.transfer ["0"] 1 true) 0
            initial_state with
    | (st', inl e) => (st', Caught e)
    | (st', inr tx) => (st', Posted (postTransaction (cfg st') [tx]))
    end
  /\ main E W initial_state "0 0" = (initial_state, Posted (Some [])).
Proof.
  intros E W. split.
  - apply (main_quantity E W initial_state "0" 4000000
             (Demo.session 0 BuilderFactory.transfer ["0"] 1 true)).
    + reflexivity.
    + vm_compute. reflexivity.
    + reflexivity.
  - apply (main_quantity E W initial_state "0 0" 4000000
             (Demo.session 0 BuilderFactory.transfer ["0"; "0"] 0 true)
             eq_refl) with (q := "0").
    + vm_compute. reflexivity.
    + reflexivity.
    + discriminate.
    + right. exists 0. split; [reflexivity | lia].
Defined.

(** X7, at two transfers on a cold run. *)
Lemma cold_run_consumes_nonces_witness :
  let E := Demo.externals Demo.accepts in
  let W := Demo.world Demo.cold in
  let st := {| nonces := ∅; cfg := Demo.cold_run |} in
  let ses := Demo.session 0 BuilderFactory.transfer ["0"; "2"] 2 true in
  main E W st "0 2" = ((loop E W ses 2 0 st []).1, Posted None)
  /\ nonces (loop E W ses 2 0 st []).1 !! "pub:2.6-wallet1" = Some (1 + 1).
Proof.
  intros E W st ses.
  destruct (cold_run_consumes_nonces E W st "0 2" eq_refl) as [_ Hcache].
  destruct (Hcache 4000000 ses) as [Hall _].
  - reflexivity.
  - vm_compute. reflexivity.
  - apply (Hall (loop E W ses 2 0 st []).1 (pushed (loop E W ses 2 0 st []).2)).
    + simpl. lia.
    + vm_compute. reflexivity.
Defined.

(** X9, at two transfers with the shipped configuration. *)
Lemma posted_transfers_witness :
  let E := Demo.externals Demo.accepts in
  let W := Demo.world Demo.cold in
  Forall (fun tx =>
            (exists w, w ∈ testWallets
                       /\ t_recipientId tx
                          = Some (Address_fromPassphrase E (passphrase w)))
            /\ t_amount tx = Some "1"
            /\ t_expiration tx = Some 0
            /\ t_asset tx = NoAsset)
         (sent (main E W initial_state "0 2").2).
Proof.
  intros E W. apply (posted_transfers E W initial_state "0 2"). reflexivity.
Defined.

(** X10, at a vote of a sender without vote: a vote for itself. *)
Lemma vote_draft_witness :
  let E := Demo.externals Demo.accepts in
  let W := Demo.world Demo.cold in
  let ses := Demo.session 3 BuilderFactory.vote ["3"] 1 true in
  exists entry,
    t_asset (Demo.drafted (iteration E W ses 0 initial_state)) = VotesAsset [entry]
    /\ entry = "+pub:2.6-wallet1".
Proof.
  intros E W ses.
  apply (vote_draft E W ses 0 initial_state (iteration E W ses 0 initial_state).1
           (Demo.drafted (iteration E W ses 0 initial_state))).
  - reflexivity.
  - vm_compute. reflexivity.
Defined.

(** X11, at a delegate registration without configured name. *)
Lemma delegate_registration_draft_witness :
  let E := Demo.externals Demo.accepts in
  let W := Demo.world Demo.cold in
  let ses := Demo.session 2 BuilderFactory.delegateRegistration ["2"] 1 true in
  exists username,
    t_asset (Demo.drafted (iteration E W ses 0 initial_state)) = UsernameAsset username
    /\ exists slice,
        username = "delegate." +:+ slice
        /\ String.prefix slice "pub:2.6-wallet1" = true
        /\ String.length slice = 10%nat.
Proof.
  intros E W ses.
  destruct (delegate_registration_draft E W ses 0 initial_state
              (iteration E W ses 0 initial_state).1
              (Demo.drafted (iteration E W ses 0 initial_state)))
    as (username & Hasset & _ & Hdefault).
  - reflexivity.
  - vm_compute. reflexivity.
  - exists username. split; [exact Hasset |]. apply Hdefault. reflexivity.
Defined.

(** X12, at a registration of the shipped multi-signature asset. *)
Lemma multisignature_registration_draft_witness :
  let E := Demo.externals Demo.accepts in
  let W := Demo.world Demo.cold in
  let ses := Demo.session 4 BuilderFactory.multiSignature ["4"] 1 true in
  let tx := Demo.drafted (iteration E W ses 0 initial_state) in
  s_aip11 ses = true
  /\ t_asset tx
     = MultiSignatureAsset
         ["pub:multisig participant 1"; "pub:multisig participant 2";
          "pub:multisig participant 3"] 2
  /\ t_senderPublicKey tx = Some "pub:2.6-wallet1"
  /\ cs_passphrase <$> t_multiSignatures tx
     = ["multisig participant 1"; "multisig participant 2"; "multisig participant 3"]
  /\ cs_index <$> t_multiSignatures tx = [0; 1; 2]
  /\ t_signature tx = Some (BuilderSigned "2.6-wallet1").
Proof.
  intros E W ses tx.
  apply (multisignature_registration_draft E W ses 0 initial_state
           (iteration E W ses 0 initial_state).1 tx).
  - reflexivity.
  - vm_compute. reflexivity.
Defined.

(** X13, at a transfer with the shipped configuration. *)
Lemma single_signer_draft_witness :
  let E := Demo.externals Demo.accepts in
  let W := Demo.world Demo.cold in
  let ses := Demo.session 0 BuilderFactory.transfer ["0"] 1 true in
  let tx := Demo.drafted (iteration E W ses 0 initial_state) in
  t_senderPublicKey tx = Some "pub:2.6-wallet1"
  /\ t_multiSignatures tx = []
  /\ t_signature tx = Some (BuilderSigned "2.6-wallet1")
  /\ t_secondSignature tx = None.
Proof.
  intros E W ses tx.
  apply (single_signer_draft E W ses 0 initial_state
           (iteration E W ses 0 initial_state).1 tx).
  - reflexivity.
  - simpl. unfold TransactionType.MultiSignature. lia.
  - vm_compute. reflexivity.
Defined.

(** X14, at a claim when the network knows no lock of the sender. *)
Lemma htlc_claim_draft_witness :
  let E := Demo.externals Demo.accepts in
  let W := Demo.world Demo.cold in
  let ses := Demo.session 9 BuilderFactory.htlcClaim ["9"] 1 true in
  iteration E W ses 0 initial_state
  = ({| nonces := {[ "pub:2.6-wallet1" := 1 ]}; cfg := initial_config |}, inl TypeError).
Proof.
  intros E W ses.
  exact (htlc_claim_draft E W ses 0 initial_state eq_refl eq_refl).
Defined.

(** X15, at a refund when the network knows no lock of the sender. *)
Lemma htlc_refund_draft_witness :
  let E := Demo.externals Demo.accepts in
  let W := Demo.world Demo.cold in
  let ses := Demo.session 10 BuilderFactory.htlcRefund ["10"] 1 true in
  iteration E W ses 0 initial_state
  = ({| nonces := {[ "pub:2.6-wallet1" := 1 ]}; cfg := initial_config |}, inl TypeError).
Proof.
  intros E W ses.
  exact (htlc_refund_draft E W ses 0 initial_state eq_refl eq_refl).
Defined.

(** X16, at a lock with the shipped expiration of 416 seconds. *)
Lemma lock_expiration_not_past_witness :
  let E := Demo.externals Demo.accepts in
  let W := Demo.world Demo.cold in
  let ses := Demo.session 8 BuilderFactory.htlcLock ["8"] 1 true in
  exists st' tx sent_value,
    assemble E W ses 0 initial_state = (st', inr tx)
    /\ lock_value (t_asset tx) = Some sent_value
    /\ 1000 <= sent_value
    /\ 416 <= sent_value.
Proof.
  intros E W ses.
  destruct (lock_expiration_not_past E W ses 0 initial_state eq_refl eq_refl eq_refl)
    as (st' & tx & sent_value & Hasm & Hsent & Hbounds & _).
  exists st', tx, sent_value.
  split; [exact Hasm |]. split; [exact Hsent |].
  apply Hbounds. simpl. lia.
Defined.

(** X17, at a request for three IPFS transactions before the second
    protocol version. *)
Lemma version2_not_supported_witness :
  main Demo.legacy (Demo.world Demo.cold) initial_state "5 3"
  = ({| nonces := {[ "pub:2.6-wallet1" := 1 ]}; cfg := initial_config |},
     Caught Version2NotSupported).
Proof.
  apply (version2_not_supported Demo.legacy (Demo.world Demo.cold) initial_state "5 3"
           4000000 (Demo.session 5 BuilderFactory.ipfs ["5"; "3"] 3 false)).
  - reflexivity.
  - vm_compute. reflexivity.
  - reflexivity.
  - simpl. lia.
  - simpl. lia.
Defined.

(** X18, at the type 11. *)
Lemma dispatch_table_covered_witness :
  is_Some (builders !! 11)
  /\ (populate (Demo.externals Demo.accepts)
        (Demo.session 11 BuilderFactory.EntityBuilder ["11"] 1 true)
        (Demo.quiet Demo.cold) initial_state).2 <> inl Version2NotSupported.
Proof.
  destruct (dispatch_table_covered (Demo.externals Demo.accepts) 11) as [Hdom Hchain].
  assert (Hsome : is_Some (builders !! 11)) by (apply Hdom; lia).
  split; [exact Hsome |].
  apply Hchain.
  - reflexivity.
  - exact Hsome.
  - left. reflexivity.
Defined.

(** X19, at a multi-payment with the shipped, empty payment list. *)
Lemma multipayment_draft_witness :
  let E := Demo.externals Demo.accepts in
  let W := Demo.world Demo.cold in
  let ses := Demo.session 6 BuilderFactory.multiPayment ["6"] 1 true in
  exists payments,
    t_asset (Demo.drafted (assemble E W ses 0 initial_state)) = PaymentsAsset payments
    /\ length payments = 96%nat.
Proof.
  intros E W ses.
  destruct (multipayment_draft E W ses 0 initial_state
              (assemble E W ses 0 initial_state).1
              (Demo.drafted (assemble E W ses 0 initial_state)))
    as (payments & _ & Hasset & _ & Hlength & _).
  - reflexivity.
  - vm_compute. reflexivity.
  - exists payments. split; [exact Hasset |].
    rewrite Hlength. vm_compute. reflexivity.
Defined.

(** X21, X22, at a session of three lines during whose second the node
    cannot be reached. *)
Lemma run_keeps_cache_witness :
  let E := Demo.externals Demo.accepts in
  let inputs := [(Demo.world Demo.cold, "0 2"); (Demo.offline, "0");
                 (Demo.world Demo.cold, "0")] in
  let st := {| nonces := {[ "pub:other" := 7 ]}; cfg := initial_config |} in
  exists m, 7 <= m /\ nonces (run E inputs st).1 !! "pub:other" = Some m.
Proof.
  intros E inputs st.
  apply (run_keeps_cache E inputs st).
  vm_compute. reflexivity.
Defined.

Lemma run_ends_at_exit_witness :
  let E := Demo.externals Demo.accepts in
  let inputs := [(Demo.world Demo.cold, "0 2"); (Demo.offline, "0");
                 (Demo.world Demo.cold, "0")] in
  S 1 = length (run E inputs initial_state).2
  /\ run E [(Demo.offline, "0"); (Demo.world Demo.cold, "0")] initial_state
     = (initial_state, [Exited]).
Proof.
  intros E inputs. split.
  - apply (run_ends_at_exit E inputs initial_state). vm_compute. reflexivity.
  - apply (run_ends_at_exit E [(Demo.offline, "0"); (Demo.world Demo.cold, "0")]
             initial_state) with (W := Demo.offline) (data := "0")
                                 (rest := [(Demo.world Demo.cold, "0")]).
    + reflexivity.
    + reflexivity.
Defined.

(** X23, at two locks with the shipped offset of 416 seconds, read at the
    network times 1000 and 5000. *)
Lemma lock_expiration_readded_witness :
  let E := Demo.externals Demo.accepts in
  let ses := Demo.session 8 BuilderFactory.htlcLock ["8"; "2"] 2 true in
  exists st2 tx2,
    assemble E Demo.passing ses 1 (assemble E Demo.passing ses 0 initial_state).1
      = (st2, inr tx2)
    /\ lock_value (t_asset tx2) = Some (416 + 1000 + 5000)
    /\ exp_value (lock_expiration (htlc_lock (c_htlc (cfg st2)))) = 416 + 1000 + 5000.
Proof.
  intros E ses.
  apply (lock_expiration_readded E Demo.passing ses 0 initial_state ses 1
           (assemble E Demo.passing ses 0 initial_state).1
           eq_refl eq_refl eq_refl eq_refl eq_refl).
  - simpl. lia.
  - simpl. lia.
  - reflexivity.
Defined.
